(** * The image repository reconciler

    A shallow embedding of [controllers/imagerepository_controller.go] and
    [api/v1alpha1/imagerepository_types.go]: the scan scheduler
    ([shouldScan]), the readiness helpers ([SetImageRepositoryReadiness],
    [GetLastTransitionTime]), credential resolution ([authFromSecret]), the
    scan itself and the [Reconcile] cycle around them.

    The controller talks to four collaborators: the Kubernetes API server
    (records and secrets), the tag database, the image registry and the
    clock.  The two stores are fields of a [World] that the cycle threads
    through; what the collaborators answer (parse results, registry
    listings, refused requests, clock readings) is given by the fields of
    the class [Collaborators]; every call a cycle issues is logged in the
    world with its answer. *)

From Stdlib Require Import ZArith Lia.
From stdpp Require Import base option list strings gmap pretty.

Local Open Scope Z_scope.

(** ** Go's [time] package: durations and instants *)

Module time.

(** [time.Duration] is an [int64] count of nanoseconds. *)
Definition Duration := Z.

Definition minDuration : Duration := - 2 ^ 63.
Definition maxDuration : Duration := 2 ^ 63 - 1.

(** Two's complement wrap-around of [int64] arithmetic. *)
Definition wrap (z : Z) : Duration := (z + 2 ^ 63) mod 2 ^ 64 - 2 ^ 63.

Definition in_range (d : Z) : Prop := minDuration <= d <= maxDuration.

Definition Nanosecond : Duration := 1.
Definition Microsecond : Duration := 1000 * Nanosecond.
Definition Millisecond : Duration := 1000 * Microsecond.
Definition Second : Duration := 1000 * Millisecond.
Definition Minute : Duration := 60 * Second.

(** The Go expression [d - e] on durations. *)
Definition sub (d e : Duration) : Duration := wrap (d - e).

(** An instant, as nanoseconds on the wall clock.  The instants compared by
    the controller come from [time.Now()] and from a timestamp read back
    from the record, which carries no monotonic reading. *)
Definition Time := Z.

(** [t.Sub(u)]: the duration [t - u]; "if the result exceeds the maximum
    (or minimum) value that can be stored in a Duration, the maximum (or
    minimum) duration will be returned". *)
Definition Sub (t u : Time) : Duration :=
  if t - u <? minDuration then minDuration
  else if maxDuration <? t - u then maxDuration
  else t - u.

End time.

(** ** The API types the controller reads and writes *)

Module metav1.

Record ObjectMeta := mkObjectMeta {
  Name : string;
  Namespace : string;
  Generation : Z;
}.

End metav1.

Module types.

(** [types.NamespacedName], as (namespace, name). *)
Definition NamespacedName := (string * string)%type.

Definition mk (namespace name : string) : NamespacedName := (namespace, name).

(** [NamespacedName.String()]: namespace and name joined by the separator. *)
Definition String (n : NamespacedName) : string := n.1 +:+ "/" +:+ n.2.

End types.

Module corev1.

Inductive ConditionStatus := ConditionTrue | ConditionFalse | ConditionUnknown.

Record LocalObjectReference := mkLocalObjectReference { Name : string }.

(** A secret: its [Data] maps a key to a payload of bytes. *)
Record Secret := mkSecret {
  ObjectMeta : metav1.ObjectMeta;
  Type_ : string;
  Data : gmap string string;
}.

Definition GetName (s : Secret) : string := metav1.Name (ObjectMeta s).
Definition GetNamespace (s : Secret) : string := metav1.Namespace (ObjectMeta s).

End corev1.

Module imagev1alpha1.

(** Modelled from the spec: the condition type and the reasons are
    constants of the API package declared outside the two source files;
    the specification names them Ready, Suspended, InvalidImageReference,
    ReconciliationFailed and ReconciliationSucceeded. *)
Definition ReadyCondition : string := "Ready".
Definition SuspendedReason : string := "Suspended".
Definition ImageURLInvalidReason : string := "InvalidImageReference".
Definition ReconciliationFailedReason : string := "ReconciliationFailed".
Definition ReconciliationSucceededReason : string := "ReconciliationSucceeded".

Module Condition.
(** Modelled from the spec: the [Condition] struct is declared outside
    the two source files; these are the five fields the code fills. *)
Record t := mk {
  Type_ : string;
  Status : corev1.ConditionStatus;
  LastTransitionTime : time.Time;
  Reason : string;
  Message : string;
}.
End Condition.

Record ImageRepositorySpec := mkSpec {
  Image : string;
  ScanInterval : option time.Duration;
  SecretRef : option corev1.LocalObjectReference;
  Suspend : bool;
}.

Record ScanResult := mkScanResult { TagCount : Z }.

Record ImageRepositoryStatus := mkStatus {
  Conditions : list Condition.t;
  ObservedGeneration : Z;
  CanonicalImageName : string;
  LastScanResult : ScanResult;
}.

Record ImageRepository := mkImageRepository {
  ObjectMeta : metav1.ObjectMeta;
  Spec : ImageRepositorySpec;
  Status : ImageRepositoryStatus;
}.

Definition GetNamespace (ir : ImageRepository) : string :=
  metav1.Namespace (ObjectMeta ir).

(** Assignments to fields of [ir.Status]. *)
Definition with_Status (ir : ImageRepository) (st : ImageRepositoryStatus) :=
  {| ObjectMeta := ObjectMeta ir; Spec := Spec ir; Status := st |}.

Definition set_Conditions (cs : list Condition.t) (ir : ImageRepository) :=
  with_Status ir
    {| Conditions := cs;
       ObservedGeneration := ObservedGeneration (Status ir);
       CanonicalImageName := CanonicalImageName (Status ir);
       LastScanResult := LastScanResult (Status ir) |}.

Definition set_ObservedGeneration (g : Z) (ir : ImageRepository) :=
  with_Status ir
    {| Conditions := Conditions (Status ir);
       ObservedGeneration := g;
       CanonicalImageName := CanonicalImageName (Status ir);
       LastScanResult := LastScanResult (Status ir) |}.

Definition set_CanonicalImageName (c : string) (ir : ImageRepository) :=
  with_Status ir
    {| Conditions := Conditions (Status ir);
       ObservedGeneration := ObservedGeneration (Status ir);
       CanonicalImageName := c;
       LastScanResult := LastScanResult (Status ir) |}.

Definition set_TagCount (n : Z) (ir : ImageRepository) :=
  with_Status ir
    {| Conditions := Conditions (Status ir);
       ObservedGeneration := ObservedGeneration (Status ir);
       CanonicalImageName := CanonicalImageName (Status ir);
       LastScanResult := {| TagCount := n |} |}.

(** [SetImageRepositoryReadiness]; [now] is the reading of [metav1.Now()]
    taken by the call. *)
Definition SetImageRepositoryReadiness (now : time.Time) (ir : ImageRepository)
    (status : corev1.ConditionStatus) (reason message : string) : ImageRepository :=
  let ir := set_Conditions
              [ {| Condition.Type_ := ReadyCondition;
                   Condition.Status := status;
                   Condition.LastTransitionTime := now;
                   Condition.Reason := reason;
                   Condition.Message := message |} ] ir in
  set_ObservedGeneration (metav1.Generation (ObjectMeta ir)) ir.

(** The loop of [GetLastTransitionTime] over a condition list: the
    timestamp of the first condition of type Ready. *)
Fixpoint firstReady (cs : list Condition.t) : option time.Time :=
  match cs with
  | [] => None
  | condition :: rest =>
      if String.eqb (Condition.Type_ condition) ReadyCondition
      then Some (Condition.LastTransitionTime condition)
      else firstReady rest
  end.

Definition GetLastTransitionTime (ir : ImageRepository) : option time.Time :=
  firstReady (Conditions (Status ir)).

End imagev1alpha1.

(** ** Errors, image references, registry credentials *)

(** A Go [error]: its [Error()] text, and whether the API machinery
    classifies it as "not found" ([apierrors.IsNotFound]). *)
Record error := mkError { Error : string; IsNotFound : bool }.

Module fmt.
(** An error made by [fmt.Errorf] from its formatted text. *)
Definition Errorf (text : string) : error := mkError text false.
End fmt.

Module client.
(** [client.IgnoreNotFound]: [nil] for a not-found error, else the error. *)
Definition IgnoreNotFound (err : error) : option error :=
  if IsNotFound err then None else Some err.
End client.

Module name.

(** What the controller observes of a parsed repository: the registry
    host ([RegistryStr()]) and the canonical name ([String()]). *)
Record Repository := mkRepository { RegistryStr : string; String : string }.

Record Reference := mkReference { Context : Repository }.

End name.

Module authn.

Record AuthConfig := mkAuthConfig {
  Username : string;
  Password : string;
  Auth : string;
  IdentityToken : string;
  RegistryToken : string;
}.

(** The authenticator built by [authn.FromConfig]; its [Authorization()]
    hands back the configuration it was built from. *)
Inductive Authenticator := FromConfig (cfg : AuthConfig).

Definition Authorization (a : Authenticator) : AuthConfig :=
  match a with FromConfig cfg => cfg end.

Definition credentials (a : Authenticator) : string * string :=
  (Username (Authorization a), Password (Authorization a)).

End authn.

Module remote.
Inductive Option := WithAuth (auth : authn.Authenticator).
End remote.

Module context.
Inductive Context :=
| Background
| WithTimeout (parent : Context) (timeout : time.Duration).
End context.

Module ctrl.

Record Result := mkResult { Requeue : bool; RequeueAfter : time.Duration }.

(** [ctrl.Result{}] *)
Definition zero : Result := {| Requeue := false; RequeueAfter := 0 |}.
(** [ctrl.Result{Requeue: true}] *)
Definition requeue : Result := {| Requeue := true; RequeueAfter := 0 |}.
(** [ctrl.Result{RequeueAfter: when}] *)
Definition after (when : time.Duration) : Result :=
  {| Requeue := false; RequeueAfter := when |}.

End ctrl.

(** The struct [authFromSecret] decodes the secret's payload into. *)
Record dockerconfig := mkDockerconfig { Auths : gmap string authn.AuthConfig }.

(** ** The world around a reconcile cycle *)

(** The calls a cycle makes to its collaborators, with what they answered. *)
Inductive Event :=
| GetRecord (key : types.NamespacedName)
    (answer : error + imagev1alpha1.ImageRepository)
| GetSecret (ctx : context.Context) (key : types.NamespacedName)
    (answer : error + corev1.Secret)
| StatusUpdate (ctx : context.Context) (obj : imagev1alpha1.ImageRepository)
    (answer : option error)
| ListTags (ctx : context.Context) (repo : name.Repository)
    (options : list remote.Option) (answer : error + list string)
| SetTags (repo : string) (tags : list string).

Record World := mkWorld {
  (** the records held by the API server *)
  objects : gmap types.NamespacedName imagev1alpha1.ImageRepository;
  (** the secrets held by the API server *)
  secrets : gmap types.NamespacedName corev1.Secret;
  (** the tag database: repository name to tags *)
  database : gmap string (list string);
  (** how many times the clock has been read *)
  ticks : nat;
  (** the calls made so far, oldest first *)
  calls : list Event;
}.

(** What the collaborators answer.  None of this is code of the controller:
    the reference parser, Go's string quoting and JSON decoder, the registry
    client, the clock, and the requests the API server refuses for reasons
    of its own (an outage, a conflict, an expired context). *)
Class Collaborators := {
  (** [name.ParseReference] *)
  ParseReference : string -> error + name.Reference;
  (** the verb [%q] of [fmt]: [strconv.Quote] *)
  Quote : string -> string;
  (** [json.NewDecoder(bytes.NewBuffer(data)).Decode(&dockerconfig)] *)
  Decode : string -> error + dockerconfig;
  (** [remote.ListWithContext] *)
  ListWithContext :
    context.Context -> name.Repository -> list remote.Option -> error + list string;
  (** the n-th reading of the clock *)
  Clock : nat -> time.Time;
  (** a read of a record that the API server fails *)
  GetRefused : types.NamespacedName -> option error;
  (** a read of a secret that the API server fails *)
  SecretRefused : context.Context -> types.NamespacedName -> option error;
  (** a status update that the API server refuses *)
  UpdateRefused : context.Context -> imagev1alpha1.ImageRepository -> option error;
}.

(** The state monad of a cycle. *)
Definition M (A : Type) : Type := World -> A * World.

Definition ret {A} (a : A) : M A := fun w => (a, w).

Definition bind {A B} (m : M A) (k : A -> M B) : M B :=
  fun w => let (a, w') := m w in k a w'.

Notation "'do' x <- m ; k" := (bind m (fun x => k))
  (at level 10, x name, m at level 100, k at level 200).
Notation "'do' ' p <- m ; k" := (bind m (fun x => let 'p := x in k))
  (at level 10, p pattern, m at level 100, k at level 200).

Definition log (e : Event) : M unit :=
  fun w =>
    (tt, {| objects := objects w; secrets := secrets w; database := database w;
            ticks := ticks w; calls := calls w ++ [e] |}).

Definition key_of (meta : metav1.ObjectMeta) : types.NamespacedName :=
  types.mk (metav1.Namespace meta) (metav1.Name meta).

(** ** The scan scheduler *)

Definition scanTimeout : time.Duration := 10 * time.Second.
Definition defaultScanInterval : time.Duration := 10 * time.Minute.

(** Modelled from the spec: the tag database behind [r.Database] is an
    interface implemented outside the source files; [Tags] answers the
    stored sequence, "empty if unknown", and [SetTags] stores a sequence
    under a name. *)
Definition Tags (db : gmap string (list string)) (repo : string) : list string :=
  default [] (db !! repo).

Definition DatabaseSetTags (repo : string) (tags : list string) : M unit :=
  fun w =>
    (tt, {| objects := objects w; secrets := secrets w;
            database := <[repo := tags]> (database w);
            ticks := ticks w; calls := calls w ++ [SetTags repo tags] |}).

(** The reconciler's [Database], for reading. *)
Definition Database : M (gmap string (list string)) := fun w => (database w, w).

(** The interval [shouldScan] works with: the record's, or the default. *)
Definition scanIntervalOf (repo : imagev1alpha1.ImageRepository) : time.Duration :=
  match imagev1alpha1.ScanInterval (imagev1alpha1.Spec repo) with
  | Some d => d
  | None => defaultScanInterval
  end.

(** [shouldScan]; [db] is the reconciler's [Database]. *)
Definition shouldScan (db : gmap string (list string))
    (repo : imagev1alpha1.ImageRepository) (now : time.Time) : bool * time.Duration :=
  let scanInterval := scanIntervalOf repo in
  match imagev1alpha1.GetLastTransitionTime repo with
  | None => (true, scanInterval)
  | Some lastTransitionTime =>
      let tags := Tags db (imagev1alpha1.CanonicalImageName (imagev1alpha1.Status repo)) in
      if Nat.eqb (length tags) 0 then (true, scanInterval)
      else
        let when := time.sub scanInterval (time.Sub now lastTransitionTime) in
        if when <? time.Second then (true, scanInterval) else (false, when)
  end.

(** ** The reconciler *)

Section Controller.

Context `{Collaborators}.

Import imagev1alpha1.

(** [apierrors.NewNotFound]: the error of a read or update of an object
    that does not exist. *)
Definition NewNotFound (resource name : string) : error :=
  mkError (resource +:+ " " +:+ Quote name +:+ " not found") true.

(** [time.Now()] and [metav1.Now()] *)
Definition Now : M time.Time :=
  fun w =>
    (Clock (ticks w),
     {| objects := objects w; secrets := secrets w; database := database w;
        ticks := S (ticks w); calls := calls w |}).

(** [r.Get(ctx, key, &imageRepo)] *)
Definition Get (key : types.NamespacedName) : M (error + ImageRepository) :=
  fun w =>
    let answer :=
      match GetRefused key with
      | Some err => inl err
      | None =>
          match objects w !! key with
          | Some obj => inr obj
          | None => inl (NewNotFound "imagerepositories.image.toolkit.fluxcd.io" key.2)
          end
      end in
    (do _ <- log (GetRecord key answer); ret answer) w.

(** [r.Get(ctx, key, &secret)] *)
Definition GetSecretObject (ctx : context.Context) (key : types.NamespacedName)
    : M (error + corev1.Secret) :=
  fun w =>
    let answer :=
      match SecretRefused ctx key with
      | Some err => inl err
      | None =>
          match secrets w !! key with
          | Some s => inr s
          | None => inl (NewNotFound "secrets" key.2)
          end
      end in
    (do _ <- log (GetSecret ctx key answer); ret answer) w.

(** [r.Status().Update(ctx, &obj)]: when the API server takes the update,
    the stored record gets the status of [obj]. *)
Definition StatusUpdateObject (ctx : context.Context) (obj : ImageRepository)
    : M (option error) :=
  fun w =>
    let key := key_of (ObjectMeta obj) in
    let answer :=
      match UpdateRefused ctx obj with
      | Some err => Some err
      | None =>
          match objects w !! key with
          | Some _ => None
          | None => Some (NewNotFound "imagerepositories.image.toolkit.fluxcd.io" key.2)
          end
      end in
    let objects' :=
      match answer, objects w !! key with
      | None, Some stored => <[key := with_Status stored (Status obj)]> (objects w)
      | _, _ => objects w
      end in
    (answer,
     {| objects := objects'; secrets := secrets w; database := database w;
        ticks := ticks w; calls := calls w ++ [StatusUpdate ctx obj answer] |}).

(** [remote.ListWithContext(ctx, repo, options...)] *)
Definition RemoteList (ctx : context.Context) (repo : name.Repository)
    (options : list remote.Option) : M (error + list string) :=
  let answer := ListWithContext ctx repo options in
  do _ <- log (ListTags ctx repo options answer); ret answer.

(** [SetImageRepositoryReadiness] with the clock reading it takes. *)
Definition SetReadinessNow (ir : ImageRepository) (status : corev1.ConditionStatus)
    (reason message : string) : M ImageRepository :=
  do now <- Now; ret (SetImageRepositoryReadiness now ir status reason message).

Definition authFromSecret (secret : corev1.Secret) (registry : string)
    : error + authn.Authenticator :=
  if String.eqb (corev1.Type_ secret) "kubernetes.io/dockerconfigjson" then
    let configData := default EmptyString (corev1.Data secret !! ".dockerconfigjson") in
    match Decode configData with
    | inl err => inl err
    | inr dockerconfig =>
        match Auths dockerconfig !! registry with
        | None =>
            inl (fmt.Errorf
                   ("auth for " +:+ Quote registry +:+ " not found in secret "
                    +:+ types.String (types.mk (corev1.GetNamespace secret)
                                               (corev1.GetName secret))))
        | Some auth => inr (authn.FromConfig auth)
        end
    end
  else inl (fmt.Errorf ("unknown secret type " +:+ Quote (corev1.Type_ secret))).

(** The return of [scan] on a failure: the record marked not ready with
    the error's text, and the error. *)
Definition scanFailed (imageRepo : ImageRepository) (err : error)
    : M (ImageRepository * option error) :=
  do failed <- SetReadinessNow imageRepo corev1.ConditionFalse
                 ReconciliationFailedReason (Error err);
  ret (failed, Some err).

(** The first half of [scan]: the options for the registry call. *)
Definition scanOptions (ctx : context.Context) (imageRepo : ImageRepository)
    (ref : name.Reference) : M (error + list remote.Option) :=
  match SecretRef (Spec imageRepo) with
  | Some secretRef =>
      do got <- GetSecretObject ctx
                  (types.mk (GetNamespace imageRepo) (corev1.Name secretRef));
      match got with
      | inl err => ret (inl err)
      | inr secret =>
          match authFromSecret secret (name.RegistryStr (name.Context ref)) with
          | inl err => ret (inl err)
          | inr auth => ret (inr [remote.WithAuth auth])
          end
      end
  | None => ret (inr [])
  end.

Definition scan (ctx : context.Context) (imageRepo : ImageRepository)
    (ref : name.Reference) : M (ImageRepository * option error) :=
  let canonicalName := name.String (name.Context ref) in
  do options <- scanOptions ctx imageRepo ref;
  match options with
  | inl err => scanFailed imageRepo err
  | inr options =>
      do listed <- RemoteList ctx (name.Context ref) options;
      match listed with
      | inl err => scanFailed imageRepo err
      | inr tags =>
          do _ <- DatabaseSetTags canonicalName tags;
          let imageRepo := set_TagCount (Z.of_nat (length tags)) imageRepo in
          do ready <- SetReadinessNow imageRepo corev1.ConditionTrue
                        ReconciliationSucceededReason
                        ("successful scan, found " +:+ pretty (length tags) +:+ " tags");
          ret (ready, None)
      end
  end.

Definition suspendedMsg : string :=
  "ImageRepository is suspended, skipping reconciliation".

Definition Reconcile (req : types.NamespacedName) : M (ctrl.Result * option error) :=
  let ctx := context.Background in
  do got <- Get req;
  match got with
  | inl err => ret (ctrl.zero, client.IgnoreNotFound err)
  | inr imageRepo =>
      if Suspend (Spec imageRepo) then
        do status <- SetReadinessNow imageRepo corev1.ConditionFalse
                       SuspendedReason suspendedMsg;
        do refused <- StatusUpdateObject ctx status;
        match refused with
        | Some err => ret (ctrl.requeue, Some err)
        | None => ret (ctrl.zero, None)
        end
      else
        match ParseReference (Image (Spec imageRepo)) with
        | inl err =>
            do status <- SetReadinessNow imageRepo corev1.ConditionFalse
                           ImageURLInvalidReason (Error err);
            do refused <- StatusUpdateObject ctx status;
            match refused with
            | Some updateErr => ret (ctrl.requeue, Some updateErr)
            | None => ret (ctrl.requeue, Some err)
            end
        | inr ref =>
            let imageRepo :=
              set_CanonicalImageName (name.String (name.Context ref)) imageRepo in
            do now <- Now;
            do db <- Database;
            let '(ok, when) := shouldScan db imageRepo now in
            if ok : bool then
              let ctx := context.WithTimeout ctx scanTimeout in
              do '(reconciledRepo, reconcileErr) <- scan ctx imageRepo ref;
              do refused <- StatusUpdateObject ctx reconciledRepo;
              match refused with
              | Some err => ret (ctrl.requeue, Some err)
              | None =>
                  match reconcileErr with
                  | Some reconcileErr => ret (ctrl.requeue, Some reconcileErr)
                  | None =>
                      do _ <- Now;
                      ret (ctrl.after when, None)
                  end
              end
            else ret (ctrl.after when, None)
        end
  end.

End Controller.

(** ** Observing a cycle *)

(** The calls issued by the cycle that [Reconcile] runs for [req] from [w]. *)
Definition issued `{Collaborators} (req : types.NamespacedName) (w : World) : list Event :=
  drop (length (calls w)) (calls (Reconcile req w).2).

(** The status updates among some calls, with the API server's answers. *)
Definition statusUpdates (l : list Event)
    : list (context.Context * imagev1alpha1.ImageRepository * option error) :=
  omap (fun e => match e with
                 | StatusUpdate ctx obj answer => Some (ctx, obj, answer)
                 | _ => None
                 end) l.

(** The branch of [Reconcile] a cycle takes: the fetch fails, the record is
    suspended, its image does not parse, or [shouldScan] says not due (with
    the delay) or due. *)
Inductive Branch :=
| NotFetched (err : error)
| IsSuspended
| InvalidReference (err : error)
| NotDue (when : time.Duration)
| Due (when : time.Duration).

Definition branch `{Collaborators} (req : types.NamespacedName) (w : World) : Branch :=
  match (Get req w).1 with
  | inl err => NotFetched err
  | inr imageRepo =>
      if imagev1alpha1.Suspend (imagev1alpha1.Spec imageRepo) then IsSuspended
      else
        match ParseReference (imagev1alpha1.Image (imagev1alpha1.Spec imageRepo)) with
        | inl err => InvalidReference err
        | inr ref =>
            let imageRepo :=
              imagev1alpha1.set_CanonicalImageName (name.String (name.Context ref))
                imageRepo in
            let '(ok, when) := shouldScan (database w) imageRepo (Clock (ticks w)) in
            if ok : bool then Due when else NotDue when
        end
  end.

(** A Ready condition, as [SetImageRepositoryReadiness] builds it. *)
Definition readyCondition (status : corev1.ConditionStatus) (at_ : time.Time)
    (reason message : string) : imagev1alpha1.Condition.t :=
  {| imagev1alpha1.Condition.Type_ := imagev1alpha1.ReadyCondition;
     imagev1alpha1.Condition.Status := status;
     imagev1alpha1.Condition.LastTransitionTime := at_;
     imagev1alpha1.Condition.Reason := reason;
     imagev1alpha1.Condition.Message := message |}.

(** The conditions of type Ready in a status. *)
Definition readyConditions (st : imagev1alpha1.ImageRepositoryStatus)
    : list imagev1alpha1.Condition.t :=
  filter (fun c => imagev1alpha1.Condition.Type_ c = imagev1alpha1.ReadyCondition)
         (imagev1alpha1.Conditions st).

(** The registry listings among some calls, with the registry's answers. *)
Definition listings (l : list Event)
    : list (context.Context * name.Repository * list remote.Option
            * (error + list string)) :=
  omap (fun e => match e with
                 | ListTags ctx repo options answer => Some (ctx, repo, options, answer)
                 | _ => None
                 end) l.

(** The scan phase of the cycle fails with [err]: the secret cannot be
    fetched, or the fetched secret gives no credentials for the registry of
    the record's image, or the registry listing fails. *)
Definition scanFailure `{Collaborators} (req : types.NamespacedName) (w : World)
    (err : error) : Prop :=
  (exists ctx key, GetSecret ctx key (inl err) ∈ issued req w)
  \/ (exists ctx key secret imageRepo ref,
        GetRecord req (inr imageRepo) ∈ issued req w
        /\ ParseReference (imagev1alpha1.Image (imagev1alpha1.Spec imageRepo)) = inr ref
        /\ GetSecret ctx key (inr secret) ∈ issued req w
        /\ authFromSecret secret (name.RegistryStr (name.Context ref)) = inl err)
  \/ (exists ctx repo options, ListTags ctx repo options (inl err) ∈ issued req w).

(** Every stored record carries at most one condition of type Ready. *)
Definition atMostOneReady (w : World) : Prop :=
  forall key obj,
    objects w !! key = Some obj ->
    (length (readyConditions (imagev1alpha1.Status obj)) <= 1)%nat.

(** ** A sample cluster

    Concrete collaborators and worlds on which the statements below are
    exercised: one registry that serves three tags, an API server that can
    be told to refuse status updates, and a clock that starts two seconds
    after the last recorded scan. *)

Module Sample.

Import imagev1alpha1.

Definition dquote : string := String (Ascii.ascii_of_nat 34) EmptyString.

(** Quoting of a text that needs no escapes. *)
Definition quote (s : string) : string := dquote +:+ s +:+ dquote.

(** A parser that knows bare official images only. *)
Definition parse (image : string) : error + name.Reference :=
  if String.eqb image EmptyString
  then inl (fmt.Errorf "could not parse reference: ")
  else inr (name.mkReference
              (name.mkRepository "index.docker.io"
                 ("index.docker.io/library/" +:+ image))).

Definition hub : string := "https://index.docker.io/v1/".

(** The login document of the credential round trip. *)
Definition payload : string :=
  "{" +:+ quote "auths" +:+ ":{" +:+ quote hub +:+ ":{"
  +:+ quote "username" +:+ ":" +:+ quote "fooser" +:+ ","
  +:+ quote "password" +:+ ":" +:+ quote "foopass" +:+ "}}}".

Definition fooser : authn.AuthConfig :=
  authn.mkAuthConfig "fooser" "foopass" EmptyString EmptyString EmptyString.

(** A decoder that knows [payload] only. *)
Definition decode (data : string) : error + dockerconfig :=
  if String.eqb data payload
  then inr {| Auths := {[ hub := fooser ]} |}
  else inl (fmt.Errorf "EOF").

Definition t0 : time.Time := 1600000000 * time.Second.

Definition clock (n : nat) : time.Time :=
  t0 + 2 * time.Second + Z.of_nat n * time.Millisecond.

Definition threeTags : list string := ["v1"; "v2"; "latest"].

Definition conflict : error :=
  mkError "the object has been modified; please apply your changes to the latest version and try again" false.

Definition refused : error := mkError "connection refused" false.

Definition cluster (registryUp apiUp : bool) : Collaborators :=
  {| ParseReference := parse;
     Quote := quote;
     Decode := decode;
     ListWithContext := fun _ _ _ => if registryUp then inr threeTags else inl refused;
     Clock := clock;
     GetRefused := fun _ => None;
     SecretRefused := fun _ _ => None;
     UpdateRefused := fun _ _ => if apiUp then None else Some conflict |}.

Definition healthy : Collaborators := cluster true true.
Definition conflicted : Collaborators := cluster true false.
Definition unreachable : Collaborators := cluster false true.

Definition key : types.NamespacedName := types.mk "default" "app".

Definition meta : metav1.ObjectMeta :=
  {| metav1.Name := "app"; metav1.Namespace := "default"; metav1.Generation := 1 |}.

Definition noStatus : ImageRepositoryStatus :=
  {| Conditions := []; ObservedGeneration := 0;
     CanonicalImageName := EmptyString; LastScanResult := {| TagCount := 0 |} |}.

Definition scannedStatus (canonical : string) : ImageRepositoryStatus :=
  {| Conditions := [ readyCondition corev1.ConditionTrue t0
                       ReconciliationSucceededReason
                       "successful scan, found 3 tags" ];
     ObservedGeneration := 1;
     CanonicalImageName := canonical;
     LastScanResult := {| TagCount := 3 |} |}.

Definition spec (image : string) (secretRef : option corev1.LocalObjectReference)
    (suspend : bool) : ImageRepositorySpec :=
  {| Image := image; ScanInterval := None; SecretRef := secretRef; Suspend := suspend |}.

Definition alpine : string := "index.docker.io/library/alpine".
Definition busybox : string := "index.docker.io/library/busybox".

(** A record that has never been reconciled. *)
Definition newRecord : ImageRepository :=
  {| ObjectMeta := meta; Spec := spec "alpine" None false; Status := noStatus |}.

(** A record scanned at [t0]. *)
Definition scannedRecord : ImageRepository :=
  {| ObjectMeta := meta; Spec := spec "alpine" None false;
     Status := scannedStatus alpine |}.

(** A record scanned at [t0] as alpine, whose image was then edited. *)
Definition editedRecord : ImageRepository :=
  {| ObjectMeta := meta; Spec := spec "busybox" None false;
     Status := scannedStatus alpine |}.

Definition suspendedRecord : ImageRepository :=
  {| ObjectMeta := meta; Spec := spec "alpine" None true; Status := noStatus |}.

(** A record that names a secret for its registry. *)
Definition privateRecord : ImageRepository :=
  {| ObjectMeta := meta;
     Spec := spec "alpine" (Some (corev1.mkLocalObjectReference "regcred")) false;
     Status := noStatus |}.

Definition secretMeta : metav1.ObjectMeta :=
  {| metav1.Name := "regcred"; metav1.Namespace := "default"; metav1.Generation := 1 |}.

Definition loginSecret : corev1.Secret :=
  {| corev1.ObjectMeta := secretMeta;
     corev1.Type_ := "kubernetes.io/dockerconfigjson";
     corev1.Data := {[ ".dockerconfigjson" := payload ]} |}.

Definition opaqueSecret : corev1.Secret :=
  {| corev1.ObjectMeta := secretMeta;
     corev1.Type_ := "Opaque";
     corev1.Data := {[ "password" := "foopass" ]} |}.

Definition world (obj : ImageRepository) (db : gmap string (list string)) : World :=
  {| objects := {[ key := obj ]};
     secrets := {[ types.mk "default" "regcred" := loginSecret ]};
     database := db;
     ticks := 0;
     calls := [] |}.

Definition scanCtx : context.Context :=
  context.WithTimeout context.Background scanTimeout.
Definition alpineRepo : name.Repository := name.mkRepository "index.docker.io" alpine.
Definition busyboxRepo : name.Repository := name.mkRepository "index.docker.io" busybox.

Definition stored : gmap string (list string) :=
  {[ alpine := threeTags; busybox := ["1.36"] ]}.

Definition fresh : World := world newRecord ∅.
Definition lapsed : World := world newRecord stored.
Definition settled : World := world scannedRecord stored.
Definition edited : World := world editedRecord stored.
Definition paused : World := world suspendedRecord ∅.
Definition private : World := world privateRecord ∅.
Definition empty : World :=
  {| objects := ∅; secrets := ∅; database := ∅; ticks := 0; calls := [] |}.

End Sample.

(** ** More of the sample cluster *)

Module Cases.

Import imagev1alpha1.

(** A record with no image at all. *)
Definition blankRecord : ImageRepository :=
  {| ObjectMeta := Sample.meta; Spec := Sample.spec EmptyString None false;
     Status := Sample.noStatus |}.

Definition blank : World := Sample.world blankRecord ∅.

Definition parseFailure : error := fmt.Errorf "could not parse reference: ".

(** A scanned record whose tags are gone from the database, as after the
    database was dropped and created again. *)
Definition dropped : World := Sample.world Sample.scannedRecord ∅.

(** A record with several conditions, two of them of type Ready. *)
Definition busyRecord : ImageRepository :=
  {| ObjectMeta := Sample.meta; Spec := Sample.spec "alpine" None false;
     Status :=
       {| Conditions :=
            [ {| Condition.Type_ := "Reconciling";
                 Condition.Status := corev1.ConditionTrue;
                 Condition.LastTransitionTime := 5;
                 Condition.Reason := "Progressing";
                 Condition.Message := EmptyString |};
              readyCondition corev1.ConditionFalse 7 ReconciliationFailedReason "EOF";
              readyCondition corev1.ConditionTrue 9 ReconciliationSucceededReason
                "successful scan, found 3 tags" ];
          ObservedGeneration := 1;
          CanonicalImageName := Sample.alpine;
          LastScanResult := {| TagCount := 3 |} |} |}.

(** A scanned record that asks for a scan every half second. *)
Definition hastyRecord : ImageRepository :=
  {| ObjectMeta := Sample.meta;
     Spec := {| Image := "alpine"; ScanInterval := Some (500 * time.Millisecond);
                SecretRef := None; Suspend := false |};
     Status := Sample.scannedStatus Sample.alpine |}.

(** A login document keyed by the bare registry host, and a decoder that
    knows it. *)
Definition barePayload : string :=
  "{" +:+ Sample.quote "auths" +:+ ":{" +:+ Sample.quote "index.docker.io" +:+ ":{"
  +:+ Sample.quote "username" +:+ ":" +:+ Sample.quote "fooser" +:+ ","
  +:+ Sample.quote "password" +:+ ":" +:+ Sample.quote "foopass" +:+ "}}}".

Definition decode (data : string) : error + dockerconfig :=
  if String.eqb data barePayload
  then inr {| Auths := {[ "index.docker.io" := Sample.fooser ]} |}
  else Sample.decode data.

Definition bareSecret : corev1.Secret :=
  {| corev1.ObjectMeta := Sample.secretMeta;
     corev1.Type_ := "kubernetes.io/dockerconfigjson";
     corev1.Data := {[ ".dockerconfigjson" := barePayload ]} |}.

(** The collaborators with a registry that answers the given tags. *)
Definition serving (tags : list string) : Collaborators :=
  {| ParseReference := Sample.parse;
     Quote := Sample.quote;
     Decode := decode;
     ListWithContext := fun _ _ _ => inr tags;
     Clock := Sample.clock;
     GetRefused := fun _ => None;
     SecretRefused := fun _ _ => None;
     UpdateRefused := fun _ _ => None |}.

(** A record that names a secret with credentials for its registry. *)
Definition loggedIn : World :=
  {| objects := {[ Sample.key := Sample.privateRecord ]};
     secrets := {[ types.mk "default" "regcred" := bareSecret ]};
     database := ∅;
     ticks := 0;
     calls := [] |}.


End Cases.

(** ** Tactics *)

(** Symbolic execution of a cycle: unfold the cycle and its calls, split on
    each answer of a collaborator as the cycle comes to it, and read the
    issued calls off the log. *)
Ltac unfold_cycle :=
  unfold scanFailure, atMostOneReady, issued, branch, Reconcile, scan, scanOptions,
    scanFailed, SetReadinessNow, RemoteList, DatabaseSetTags, Database,
    StatusUpdateObject, GetSecretObject, Get, Now, log, bind, ret.

Ltac reduce_cycle := cbn [fst snd objects secrets database ticks calls].

Ltac next_answer :=
  match goal with
  | |- context [match ?x with _ => _ end] =>
      lazymatch x with
      | context [match _ with _ => _ end] => fail
      | _ => destruct x eqn:?
      end
  end.

Ltac read_log := rewrite <- ?app_assoc; cbn [app]; rewrite ?drop_app_length.

Ltac run_cycle :=
  unfold_cycle; reduce_cycle; repeat (next_answer; reduce_cycle); read_log.

(** Two answers to the same question are the same answer. *)
Ltac same_answer :=
  repeat match goal with
         | H1 : ?x = _, H2 : ?x = _ |- _ =>
             rewrite H1 in H2;
             first [discriminate H2 | injection H2 as ?; subst | clear H2]
         end.

Ltac split_all := repeat match goal with |- _ /\ _ => split end.

(** A call that is among the issued ones. *)
Ltac find_call :=
  repeat first [apply list_elem_of_here | apply list_elem_of_further].

(** Which of the issued calls a given call is. *)
Ltac which_call :=
  decompose_list_elem_of;
  repeat match goal with
         | H : @eq Event _ _ |- _ =>
             first [discriminate H | inversion H; clear H; subst]
         end.

(** * Properties *)

(** ** Durations *)

Lemma wrap_in_range z : time.in_range z -> time.wrap z = z.
Proof.
  unfold time.in_range, time.wrap, time.minDuration, time.maxDuration.
  intros Hz. rewrite Z.mod_small; lia.
Qed.

Lemma wrap_bounds z : time.in_range (time.wrap z).
Proof.
  unfold time.in_range, time.wrap, time.minDuration, time.maxDuration.
  pose proof (Z.mod_pos_bound (z + 2 ^ 63) (2 ^ 64)). lia.
Qed.

Lemma Sub_exact t u : time.in_range (t - u) -> time.Sub t u = t - u.
Proof.
  unfold time.in_range, time.Sub. intros Hz.
  destruct (Z.ltb_spec (t - u) time.minDuration); [lia|].
  destruct (Z.ltb_spec time.maxDuration (t - u)); [lia|done].
Qed.

Lemma Sub_bounds t u : time.in_range (time.Sub t u).
Proof.
  unfold time.in_range, time.Sub.
  destruct (Z.ltb_spec (t - u) time.minDuration);
    [unfold time.minDuration, time.maxDuration; lia|].
  destruct (Z.ltb_spec time.maxDuration (t - u));
    [unfold time.minDuration, time.maxDuration; lia|lia].
Qed.

(** Outside the range of a duration the Go subtraction wraps around and
    [Sub] saturates. *)
Lemma sub_wraps_Sub_saturates :
  time.sub time.maxDuration (-1) = time.minDuration
  /\ time.Sub (2 ^ 63) 0 = time.maxDuration
  /\ time.Sub 0 (2 ^ 63 + 1) = time.minDuration.
Proof. repeat split; reflexivity. Qed.

Lemma defaultScanInterval_ten_minutes :
  defaultScanInterval = 10 * time.Minute /\ defaultScanInterval = 600000000000.
Proof. split; reflexivity. Qed.

Lemma scanIntervalOf_default repo :
  scanIntervalOf repo =
  default (10 * time.Minute) (imagev1alpha1.ScanInterval (imagev1alpha1.Spec repo)).
Proof. unfold scanIntervalOf. by destruct (imagev1alpha1.ScanInterval _). Qed.

(** ** Readiness: [GetLastTransitionTime] and [SetImageRepositoryReadiness] *)

Section Readiness.

Import imagev1alpha1.

Lemma firstReady_None cs :
  firstReady cs = None <-> Forall (fun c => Condition.Type_ c <> ReadyCondition) cs.
Proof.
  induction cs as [|c cs IH]; simpl.
  - split; [constructor|done].
  - destruct (String.eqb_spec (Condition.Type_ c) ReadyCondition) as [Heq|Hne].
    + split; [done|]. intros Hall. inversion Hall; subst. contradiction.
    + rewrite IH. split.
      * by constructor.
      * intros Hall. by inversion Hall.
Qed.

Lemma firstReady_Some cs :
  Exists (fun c => Condition.Type_ c = ReadyCondition) cs ->
  exists c, c ∈ cs /\ Condition.Type_ c = ReadyCondition
            /\ firstReady cs = Some (Condition.LastTransitionTime c).
Proof.
  induction 1 as [c cs Hc|c cs _ IH]; simpl.
  - exists c. rewrite Hc. simpl. split; [left|done].
  - destruct (String.eqb_spec (Condition.Type_ c) ReadyCondition) as [Heq|Hne].
    + exists c. split; [left|done].
    + destruct IH as (c' & Hin & Hty & Hfirst). exists c'. split; [by right|done].
Qed.

Lemma GetLastTransitionTime_set now ir status reason message :
  GetLastTransitionTime (SetImageRepositoryReadiness now ir status reason message)
  = Some now.
Proof. reflexivity. Qed.

Lemma SetImageRepositoryReadiness_conditions now ir status reason message :
  Conditions (Status (SetImageRepositoryReadiness now ir status reason message))
  = [readyCondition status now reason message].
Proof. reflexivity. Qed.

Lemma SetImageRepositoryReadiness_generation now ir status reason message :
  ObservedGeneration (Status (SetImageRepositoryReadiness now ir status reason message))
  = metav1.Generation (ObjectMeta ir).
Proof. reflexivity. Qed.

Lemma SetImageRepositoryReadiness_frame now ir status reason message :
  let ir' := SetImageRepositoryReadiness now ir status reason message in
  ObjectMeta ir' = ObjectMeta ir /\ Spec ir' = Spec ir
  /\ CanonicalImageName (Status ir') = CanonicalImageName (Status ir)
  /\ LastScanResult (Status ir') = LastScanResult (Status ir).
Proof. by repeat split. Qed.

End Readiness.

(** ** The scan scheduler *)

Section Scheduler.

Import imagev1alpha1.

(** C3. A record with no Ready condition, or whose canonical name has no
    tags in the database, is scanned now, and is checked again after its
    scan interval (ten minutes when the record sets none), whatever the
    time is. *)
Theorem shouldScan_without_ready_or_tags
    (db : gmap string (list string)) (repo : ImageRepository) (now : time.Time) :
  Forall (fun c => Condition.Type_ c <> ReadyCondition) (Conditions (Status repo))
  \/ length (Tags db (CanonicalImageName (Status repo))) = 0%nat ->
  shouldScan db repo now
  = (true, default (10 * time.Minute) (ScanInterval (Spec repo))).
Proof.
  intros Hcase. unfold shouldScan. rewrite scanIntervalOf_default.
  destruct (GetLastTransitionTime repo) as [last|] eqn:Hlast; [|done].
  destruct Hcase as [Hnone|Hempty].
  - apply firstReady_None in Hnone. unfold GetLastTransitionTime in Hlast. congruence.
  - by rewrite Hempty.
Qed.

(** C4. A record with a Ready condition and stored tags: with the scan
    interval (ten minutes when unset) and the remaining time
    [scanInterval - now.Sub(lastTransitionTime)], it is scanned now and
    checked again after the interval when less than a second remains, and
    otherwise not scanned and checked again after exactly the remaining
    time.  The remaining time is a Go duration; it is the difference of
    the integers whenever that difference fits a duration. *)
Theorem shouldScan_remaining
    (db : gmap string (list string)) (repo : ImageRepository) (now : time.Time) :
  Exists (fun c => Condition.Type_ c = ReadyCondition) (Conditions (Status repo)) ->
  length (Tags db (CanonicalImageName (Status repo))) <> 0%nat ->
  exists last,
    GetLastTransitionTime repo = Some last /\
    let scanInterval := default (10 * time.Minute) (ScanInterval (Spec repo)) in
    let remaining := time.sub scanInterval (time.Sub now last) in
    shouldScan db repo now
    = (if remaining <? time.Second then (true, scanInterval) else (false, remaining))
    /\ (time.in_range (now - last) ->
        time.in_range (scanInterval - (now - last)) ->
        remaining = scanInterval - (now - last)).
Proof.
  intros Hready Htags.
  destruct (firstReady_Some _ Hready) as (c & _ & _ & Hfirst).
  exists (Condition.LastTransitionTime c). split; [done|].
  cbv zeta. split.
  - unfold shouldScan, GetLastTransitionTime. rewrite Hfirst, scanIntervalOf_default.
    destruct (length _) eqn:Hlen; [done|]. simpl.
    by destruct (_ <? time.Second).
  - intros Hd Hr. unfold time.sub. rewrite Sub_exact by done.
    by apply wrap_in_range.
Qed.

End Scheduler.

(** ** Credential resolution *)

Section Credentials.

Context `{Collaborators}.

Lemma authFromSecret_supported secret registry :
  corev1.Type_ secret = "kubernetes.io/dockerconfigjson" ->
  authFromSecret secret registry =
  match Decode (default EmptyString (corev1.Data secret !! ".dockerconfigjson")) with
  | inl err => inl err
  | inr cfg =>
      match Auths cfg !! registry with
      | Some auth => inr (authn.FromConfig auth)
      | None =>
          inl (fmt.Errorf
                 ("auth for " +:+ Quote registry +:+ " not found in secret "
                  +:+ corev1.GetNamespace secret +:+ "/" +:+ corev1.GetName secret))
      end
  end.
Proof. intros Hty. unfold authFromSecret. by rewrite Hty. Qed.

(** C7. A secret of type kubernetes.io/dockerconfigjson whose login document
    decodes to a mapping that holds, under the host
    https://index.docker.io/v1/, the user name fooser and the password
    foopass: resolving the credentials for that host gives an authenticator
    whose credentials are exactly (fooser, foopass). *)
Theorem authFromSecret_round_trip
    (secret : corev1.Secret) (cfg : dockerconfig) (entry : authn.AuthConfig) :
  corev1.Type_ secret = "kubernetes.io/dockerconfigjson" ->
  Decode (default EmptyString (corev1.Data secret !! ".dockerconfigjson")) = inr cfg ->
  Auths cfg !! "https://index.docker.io/v1/" = Some entry ->
  authn.Username entry = "fooser" ->
  authn.Password entry = "foopass" ->
  exists auth,
    authFromSecret secret "https://index.docker.io/v1/" = inr auth
    /\ authn.credentials auth = ("fooser", "foopass").
Proof.
  intros Hty Hdec Hentry Huser Hpass.
  exists (authn.FromConfig entry). split.
  - by rewrite authFromSecret_supported, Hdec, Hentry.
  - unfold authn.credentials. simpl. by rewrite Huser, Hpass.
Qed.

(** C8. Resolution fails with the error "unknown secret type" (naming the
    type) for a secret of any type but kubernetes.io/dockerconfigjson; and
    for a secret of that type whose decoded mapping has no entry under
    exactly the registry host, it fails with the error "auth for (host) not
    found in secret (namespace/name)". *)
Theorem authFromSecret_failures (secret : corev1.Secret) (registry : string) :
  (corev1.Type_ secret <> "kubernetes.io/dockerconfigjson" ->
   authFromSecret secret registry
   = inl (fmt.Errorf ("unknown secret type " +:+ Quote (corev1.Type_ secret))))
  /\ (forall cfg,
        corev1.Type_ secret = "kubernetes.io/dockerconfigjson" ->
        Decode (default EmptyString (corev1.Data secret !! ".dockerconfigjson")) = inr cfg ->
        Auths cfg !! registry = None ->
        authFromSecret secret registry
        = inl (fmt.Errorf
                 ("auth for " +:+ Quote registry +:+ " not found in secret "
                  +:+ corev1.GetNamespace secret +:+ "/" +:+ corev1.GetName secret))).
Proof.
  split.
  - intros Hty. unfold authFromSecret.
    by destruct (String.eqb_spec (corev1.Type_ secret) "kubernetes.io/dockerconfigjson").
  - intros cfg Hty Hdec Hmiss.
    by rewrite authFromSecret_supported, Hdec, Hmiss.
Qed.

(** Resolution never yields credentials of an entry under another key: the
    lookup is by the exact host. *)
Lemma authFromSecret_exact secret registry auth :
  authFromSecret secret registry = inr auth ->
  exists cfg,
    Decode (default EmptyString (corev1.Data secret !! ".dockerconfigjson")) = inr cfg
    /\ Auths cfg !! registry = Some (authn.Authorization auth).
Proof.
  unfold authFromSecret. intros Hres.
  destruct (String.eqb _ _); [|done].
  destruct (Decode _) as [err|cfg]; [done|]. exists cfg. split; [done|].
  destruct (Auths cfg !! registry) as [entry|]; [|done].
  by inversion Hres.
Qed.

End Credentials.

(** ** The reconcile cycle *)

Section Cycle.

Context `{Collaborators}.

Import imagev1alpha1.

Lemma shouldScan_due db repo now when :
  shouldScan db repo now = (true, when) -> when = scanIntervalOf repo.
Proof.
  unfold shouldScan. repeat case_match; congruence.
Qed.

Lemma scanIntervalOf_canonical c repo :
  scanIntervalOf (set_CanonicalImageName c repo) = scanIntervalOf repo.
Proof. reflexivity. Qed.

(** The log only grows: the calls after a cycle are those before it and then
    those the cycle issued. *)
Lemma Reconcile_calls req w :
  calls (Reconcile req w).2 = calls w ++ issued req w.
Proof.
  unfold issued.
  assert (exists new, calls (Reconcile req w).2 = calls w ++ new) as [new ->].
  { run_cycle; eauto. }
  by rewrite drop_app_length.
Qed.

(** A cycle starts by fetching the record, and leaves the secrets alone. *)
Lemma Reconcile_fetches req w :
  exists rest, issued req w = GetRecord req (Get req w).1 :: rest.
Proof. run_cycle; eauto. Qed.

Lemma Reconcile_secrets req w : secrets (Reconcile req w).2 = secrets w.
Proof. run_cycle; done. Qed.

(** C1. A cycle that fetches the record, finds it not suspended, parses its
    image and is told by [shouldScan] that no scan is due: it returns the
    delay of [shouldScan] and no error; the fetch is the only call it
    issues, so nothing is listed and no status is written; the records and
    the tag database stay as they were, the canonical name being set on the
    copy of the record the cycle works on only. *)
Theorem Reconcile_not_due
    (req : types.NamespacedName) (w : World) (imageRepo : ImageRepository)
    (ref : name.Reference) (when : time.Duration) :
  GetRefused req = None ->
  objects w !! req = Some imageRepo ->
  Suspend (Spec imageRepo) = false ->
  ParseReference (Image (Spec imageRepo)) = inr ref ->
  shouldScan (database w)
    (set_CanonicalImageName (name.String (name.Context ref)) imageRepo)
    (Clock (ticks w)) = (false, when) ->
  (Reconcile req w).1 = (ctrl.after when, None)
  /\ issued req w = [GetRecord req (inr imageRepo)]
  /\ objects (Reconcile req w).2 = objects w
  /\ database (Reconcile req w).2 = database w.
Proof.
  intros Hget Hobj Hsus Hparse Hdue.
  unfold_cycle. rewrite Hget, Hobj. reduce_cycle. rewrite Hsus, Hparse.
  reduce_cycle. rewrite Hdue. reduce_cycle. by rewrite drop_app_length.
Qed.

(** C2. The status writes of a cycle, by the branch it takes: none when the
    fetch fails or no scan is due, one when the record is suspended, its
    image does not parse, or a scan is due.  A cycle whose fetch fails
    issues the fetch only and returns the error of the fetch, unless that
    error is a not-found error, which it drops. *)
Theorem Reconcile_status_updates (req : types.NamespacedName) (w : World) :
  length (statusUpdates (issued req w))
  = match branch req w with
    | NotFetched _ | NotDue _ => 0%nat
    | IsSuspended | InvalidReference _ | Due _ => 1%nat
    end
  /\ (forall err,
        branch req w = NotFetched err ->
        issued req w = [GetRecord req (inl err)]
        /\ (Reconcile req w).1
           = (ctrl.zero, if IsNotFound err then None else Some err)).
Proof.
  split.
  - run_cycle; reflexivity.
  - intros err.
    enough (branch req w = NotFetched err ->
            issued req w = [GetRecord req (inl err)]
            /\ (Reconcile req w).1 = (ctrl.zero, client.IgnoreNotFound err))
      as Hfetch by (intros [-> ->]%Hfetch; done).
    run_cycle; try done.
    all: by intros [= <-].
Qed.

(** C10. A cycle in which no registry listing succeeds leaves the tag
    database as it was and never calls SetTags; such are the cycles that
    take another branch than the due one, and those whose scan phase fails.
    In every cycle SetTags is only called right after a listing that
    answered the same tags for the repository of that name. *)
Theorem Reconcile_keeps_tags (req : types.NamespacedName) (w : World) :
  ((forall ctx repo options tags,
      ListTags ctx repo options (inr tags) ∉ issued req w) ->
   database (Reconcile req w).2 = database w
   /\ forall repo tags, SetTags repo tags ∉ issued req w)
  /\ ((forall when, branch req w <> Due when) ->
      listings (issued req w) = [])
  /\ (forall err, scanFailure req w err ->
      forall ctx repo options tags,
        ListTags ctx repo options (inr tags) ∉ issued req w)
  /\ (forall canonicalName tags,
        SetTags canonicalName tags ∈ issued req w ->
        exists before ctx repo options after,
          issued req w
          = before ++ ListTags ctx repo options (inr tags)
                   :: SetTags canonicalName tags :: after
          /\ canonicalName = name.String repo).
Proof.
  split; [|split; [|split]].
  - run_cycle; intros Hno.
    all: first [ split; [reflexivity | intros repo tags Hin; which_call]
               | exfalso; eapply Hno; find_call ].
  - run_cycle; intros Hnot; try reflexivity.
    all: by destruct (Hnot _ eq_refl).
  - intros err. run_cycle.
    all: intros Hfail ctx repo options tags Hin; which_call.
    all: destruct Hfail as [(?&?&Hf)|[(?&?&?&?&?&Hrec&Hparse&Hsec&Hauth)|(?&?&?&Hf)]].
    all: which_call; same_answer.
  - intros canonicalName tags. run_cycle.
    all: intros Hin; which_call.
    all: first [ eexists [_; _], _, _, _, [_]; split; reflexivity
               | eexists [_], _, _, _, [_]; split; reflexivity ].
Qed.

(** C5. A cycle that fetched the record and whose registry listing
    answered [tags]: SetTags is called with the canonical name and the tags,
    and the tag database holds them under that name; one status update is
    issued, whose record carries the tag count, the canonical name and the
    single condition Ready, True, ReconciliationSucceeded with the count in
    its message.  When the API server takes the update, the stored record
    has that status and the cycle returns the scan interval as delay and no
    error; when it refuses, the cycle returns the refusal with a plain
    requeue and the stored records are as before. *)
Theorem Reconcile_listing_succeeded
    (req : types.NamespacedName) (w : World) (imageRepo : ImageRepository)
    (ctx : context.Context) (repo : name.Repository)
    (options : list remote.Option) (tags : list string) :
  GetRecord req (inr imageRepo) ∈ issued req w ->
  ListTags ctx repo options (inr tags) ∈ issued req w ->
  exists obj at_ answer,
    SetTags (name.String repo) tags ∈ issued req w
    /\ database (Reconcile req w).2 = <[name.String repo := tags]> (database w)
    /\ statusUpdates (issued req w) = [(ctx, obj, answer)]
    /\ TagCount (LastScanResult (Status obj)) = Z.of_nat (length tags)
    /\ CanonicalImageName (Status obj) = name.String repo
    /\ Conditions (Status obj)
       = [readyCondition corev1.ConditionTrue at_ ReconciliationSucceededReason
            ("successful scan, found " +:+ pretty (length tags) +:+ " tags")]
    /\ match answer with
       | None =>
           (Reconcile req w).1 = (ctrl.after (scanIntervalOf imageRepo), None)
           /\ exists stored,
               objects (Reconcile req w).2 !! key_of (ObjectMeta obj) = Some stored
               /\ Status stored = Status obj
       | Some err =>
           (Reconcile req w).1 = (ctrl.requeue, Some err)
           /\ objects (Reconcile req w).2 = objects w
       end.
Proof.
  run_cycle.
  all: intros Hrec Hlist; which_call.
  all: eexists _, _, _.
  all: split_all; try reflexivity; try (by find_call).
  all: cbn beta iota; split_all; try reflexivity.
  all: try (eexists; split; [apply lookup_insert_eq|reflexivity]).
  all: match goal with
       | Hdue : shouldScan _ _ _ = (true, _) |- _ =>
           apply shouldScan_due in Hdue; by rewrite Hdue
       end.
Qed.


(** C9. [SetImageRepositoryReadiness] replaces whatever conditions the
    record had by one condition of type Ready stamped with the reading of
    the clock, and sets the observed generation to the record's generation.
    Every status update a cycle issues carries the fetched record's
    metadata with such a status, stamped with a reading the cycle took;
    when the API server takes it, that status is the stored one.  So a
    cycle keeps every stored record at no more than one Ready condition. *)
Theorem status_write_one_ready_condition
    (req : types.NamespacedName) (w : World) :
  (forall now ir status reason message,
     let ir' := SetImageRepositoryReadiness now ir status reason message in
     Conditions (Status ir') = [readyCondition status now reason message]
     /\ ObservedGeneration (Status ir') = metav1.Generation (ObjectMeta ir))
  /\ (forall ctx obj answer,
        StatusUpdate ctx obj answer ∈ issued req w ->
        exists fetched status n reason message,
          objects w !! req = Some fetched
          /\ ObjectMeta obj = ObjectMeta fetched
          /\ Conditions (Status obj) = [readyCondition status (Clock n) reason message]
          /\ (ticks w <= n < ticks (Reconcile req w).2)%nat
          /\ ObservedGeneration (Status obj) = metav1.Generation (ObjectMeta fetched)
          /\ (answer = None ->
              exists stored,
                objects (Reconcile req w).2 !! key_of (ObjectMeta obj) = Some stored
                /\ Status stored = Status obj))
  /\ (atMostOneReady w -> atMostOneReady (Reconcile req w).2).
Proof.
  split; [|split].
  - intros now ir status reason message. by split.
  - intros ctx obj answer. run_cycle.
    all: intros Hin; which_call.
    all: eexists _, _, _, _, _.
    all: split_all; try reflexivity; try lia; try done.
    all: intros _; eexists; split; [apply lookup_insert_eq|reflexivity].
  - run_cycle.
    all: intros Hinv key o'; try apply Hinv.
    all: rewrite lookup_insert.
    all: case_decide; [|apply Hinv].
    all: intros [= <-]; cbn; by rewrite decide_True.
Qed.

End Cycle.

(** ** The statements on the sample cluster *)

Section Runs.

Import imagev1alpha1.

(** The second cycle, two seconds after a scan: nothing is due for nine
    minutes and fifty-eight seconds, and the fetch is the only call. *)
Lemma Reconcile_not_due_settled :
  (Reconcile (H := Sample.healthy) Sample.key Sample.settled).1
  = (ctrl.after (10 * time.Minute - 2 * time.Second), None)
  /\ issued (H := Sample.healthy) Sample.key Sample.settled
     = [GetRecord Sample.key (inr Sample.scannedRecord)]
  /\ objects (Reconcile (H := Sample.healthy) Sample.key Sample.settled).2
     = objects Sample.settled
  /\ database (Reconcile (H := Sample.healthy) Sample.key Sample.settled).2
     = database Sample.settled.
Proof.
  apply (Reconcile_not_due (H := Sample.healthy) Sample.key Sample.settled
           Sample.scannedRecord (name.mkReference Sample.alpineRepo)
           (10 * time.Minute - 2 * time.Second)).
  all: vm_compute; reflexivity.
Defined.

(** The image of a scanned record was edited to one whose tags are in the
    database already.  The cycle fetches the record, which is not suspended
    and whose image parses, no scan is due, and the canonical name differs
    from the stored one; yet the stored status keeps the old name, and no
    status update is issued. *)
Lemma not_due_canonical_name_unwritten :
  (Get (H := Sample.healthy) Sample.key Sample.edited).1 = inr Sample.editedRecord
  /\ Suspend (Spec Sample.editedRecord) = false
  /\ Sample.parse (Image (Spec Sample.editedRecord)) = inr (name.mkReference Sample.busyboxRepo)
  /\ branch (H := Sample.healthy) Sample.key Sample.edited
     = NotDue (10 * time.Minute - 2 * time.Second)
  /\ CanonicalImageName (Status Sample.editedRecord) <> name.String Sample.busyboxRepo
  /\ (Reconcile (H := Sample.healthy) Sample.key Sample.edited).1
     = (ctrl.after (10 * time.Minute - 2 * time.Second), None)
  /\ (CanonicalImageName ∘ Status)
       <$> objects (Reconcile (H := Sample.healthy) Sample.key Sample.edited).2
           !! Sample.key
     = Some Sample.alpine
  /\ statusUpdates (issued (H := Sample.healthy) Sample.key Sample.edited) = [].
Proof.
  repeat match goal with |- _ /\ _ => split end.
  all: try (vm_compute; reflexivity).
  vm_compute. discriminate.
Qed.

(** The second cycle, two seconds after a scan, finds the record and writes
    no status at all. *)
Lemma not_due_cycle_writes_no_status :
  (Get (H := Sample.healthy) Sample.key Sample.settled).1 = inr Sample.scannedRecord
  /\ branch (H := Sample.healthy) Sample.key Sample.settled
     = NotDue (10 * time.Minute - 2 * time.Second)
  /\ length (statusUpdates (issued (H := Sample.healthy) Sample.key Sample.settled))
     = 0%nat
  /\ (Reconcile (H := Sample.healthy) Sample.key Sample.settled).1
     = (ctrl.after (10 * time.Minute - 2 * time.Second), None).
Proof. repeat split; vm_compute; reflexivity. Qed.

(** A record that was never reconciled is scanned at once. *)
Lemma shouldScan_new_record :
  shouldScan Sample.stored Sample.newRecord (Sample.clock 0)
  = (true, 10 * time.Minute).
Proof.
  apply (shouldScan_without_ready_or_tags Sample.stored Sample.newRecord (Sample.clock 0)).
  left. simpl. constructor.
Defined.

(** Two seconds after a scan, with tags stored, the next check is in exactly
    the remaining nine minutes and fifty-eight seconds. *)
Lemma shouldScan_remaining_settled :
  shouldScan Sample.stored Sample.scannedRecord (Sample.clock 0)
  = (false, 10 * time.Minute - 2 * time.Second).
Proof.
  destruct (shouldScan_remaining Sample.stored Sample.scannedRecord (Sample.clock 0))
    as (last & Hlast & Hscan & _).
  - left. reflexivity.
  - vm_compute. discriminate.
  - injection Hlast as <-. exact Hscan.
Defined.

(** The credential round trip on the sample login secret. *)
Lemma authFromSecret_round_trip_sample :
  exists auth,
    authFromSecret (H := Sample.healthy) Sample.loginSecret "https://index.docker.io/v1/"
    = inr auth
    /\ authn.credentials auth = ("fooser", "foopass").
Proof.
  apply (authFromSecret_round_trip (H := Sample.healthy) Sample.loginSecret
           {| Auths := {[ Sample.hub := Sample.fooser ]} |} Sample.fooser).
  all: vm_compute; reflexivity.
Defined.

(** An opaque secret is of an unknown type; the login secret has no entry
    under the bare registry host. *)
Lemma authFromSecret_failures_sample :
  authFromSecret (H := Sample.healthy) Sample.opaqueSecret Sample.hub
  = inl (fmt.Errorf ("unknown secret type " +:+ Sample.quote "Opaque"))
  /\ authFromSecret (H := Sample.healthy) Sample.loginSecret "index.docker.io"
     = inl (fmt.Errorf ("auth for " +:+ Sample.quote "index.docker.io"
                        +:+ " not found in secret default/regcred")).
Proof.
  split.
  - apply (proj1 (authFromSecret_failures (H := Sample.healthy)
                    Sample.opaqueSecret Sample.hub)).
    vm_compute. discriminate.
  - apply (proj2 (authFromSecret_failures (H := Sample.healthy)
                    Sample.loginSecret "index.docker.io")
             {| Auths := {[ Sample.hub := Sample.fooser ]} |}).
    all: vm_compute; reflexivity.
Defined.

(** The first cycle of a new record against a healthy cluster: three tags
    are stored and reported. *)
Lemma Reconcile_listing_succeeded_fresh :
  exists obj at_ answer,
    statusUpdates (issued (H := Sample.healthy) Sample.key Sample.fresh)
    = [(Sample.scanCtx, obj, answer)]
    /\ database (Reconcile (H := Sample.healthy) Sample.key Sample.fresh).2
       = {[ Sample.alpine := Sample.threeTags ]}
    /\ TagCount (LastScanResult (Status obj)) = 3
    /\ Conditions (Status obj)
       = [readyCondition corev1.ConditionTrue at_ ReconciliationSucceededReason
            "successful scan, found 3 tags"].
Proof.
  destruct (Reconcile_listing_succeeded (H := Sample.healthy) Sample.key Sample.fresh
              Sample.newRecord Sample.scanCtx Sample.alpineRepo [] Sample.threeTags)
    as (obj & at_ & answer & _ & Hdb & Hupd & Hcount & _ & Hcond & _).
  - vm_compute. repeat constructor.
  - vm_compute. repeat constructor.
  - exists obj, at_, answer.
    split; [exact Hupd|]. split; [|split; [exact Hcount|exact Hcond]].
    rewrite Hdb. vm_compute. reflexivity.
Defined.

(** The same cycle against an API server that refuses the status update:
    the listing succeeds and the tags are stored, but the cycle returns the
    refusal, and the stored record is as before. *)
Lemma listing_succeeded_update_refused :
  listings (issued (H := Sample.conflicted) Sample.key Sample.fresh)
  = [(Sample.scanCtx, Sample.alpineRepo, [], inr Sample.threeTags)]
  /\ (Reconcile (H := Sample.conflicted) Sample.key Sample.fresh).1
     = (ctrl.requeue, Some Sample.conflict)
  /\ (Reconcile (H := Sample.conflicted) Sample.key Sample.fresh).1
     <> (ctrl.after (scanIntervalOf Sample.newRecord), None)
  /\ objects (Reconcile (H := Sample.conflicted) Sample.key Sample.fresh).2
     = objects Sample.fresh
  /\ database (Reconcile (H := Sample.conflicted) Sample.key Sample.fresh).2
       !! Sample.alpine
     = Some Sample.threeTags.
Proof.
  repeat match goal with |- _ /\ _ => split end.
  all: try (vm_compute; reflexivity).
  vm_compute. discriminate.
Qed.



(** A record without credentials for its registry host: the resolution
    fails before any listing, and the failure is written and returned. *)
Lemma Reconcile_private_without_entry :
  listings (issued (H := Sample.healthy) Sample.key Sample.private) = []
  /\ (Reconcile (H := Sample.healthy) Sample.key Sample.private).1
     = (ctrl.requeue,
        Some (fmt.Errorf ("auth for " +:+ Sample.quote "index.docker.io"
                          +:+ " not found in secret default/regcred")))
  /\ (fun obj => Condition.Reason <$> Conditions (Status obj))
       <$> objects (Reconcile (H := Sample.healthy) Sample.key Sample.private).2
           !! Sample.key
     = Some [ReconciliationFailedReason].
Proof. repeat split; vm_compute; reflexivity. Qed.

(** A due cycle against an unreachable registry keeps the tags that were
    stored before. *)
Lemma Reconcile_keeps_tags_unreachable :
  database (Reconcile (H := Sample.unreachable) Sample.key Sample.lapsed).2
  = Sample.stored.
Proof.
  apply (proj1 (Reconcile_keeps_tags (H := Sample.unreachable) Sample.key Sample.lapsed)).
  intros ctx repo options tags Hin.
  set (l := issued Sample.key Sample.lapsed) in Hin.
  vm_compute in l. subst l. which_call.
Defined.

(** A suspended record: one status write, no listing. *)
Lemma Reconcile_suspended_sample :
  branch (H := Sample.healthy) Sample.key Sample.paused = IsSuspended
  /\ listings (issued (H := Sample.healthy) Sample.key Sample.paused) = []
  /\ (Reconcile (H := Sample.healthy) Sample.key Sample.paused).1 = (ctrl.zero, None)
  /\ (fun obj => Condition.Reason <$> Conditions (Status obj))
       <$> objects (Reconcile (H := Sample.healthy) Sample.key Sample.paused).2
           !! Sample.key
     = Some [SuspendedReason].
Proof. repeat split; vm_compute; reflexivity. Qed.

(** A record that is gone: nothing but the fetch, and no error. *)
Lemma Reconcile_not_found_sample :
  issued (H := Sample.healthy) Sample.key Sample.empty
  = [GetRecord Sample.key
       (inl (mkError ("imagerepositories.image.toolkit.fluxcd.io "
                      +:+ Sample.quote "app" +:+ " not found") true))]
  /\ (Reconcile (H := Sample.healthy) Sample.key Sample.empty).1 = (ctrl.zero, None).
Proof. split; vm_compute; reflexivity. Qed.

End Runs.

(** ** The other branches of a cycle *)

Section Branches.

Context `{Collaborators}.

Import imagev1alpha1.

(** What a logged fetch says about the world. *)
Lemma fetched_record req w imageRepo :
  GetRecord req (inr imageRepo) ∈ issued req w ->
  GetRefused req = None /\ objects w !! req = Some imageRepo.
Proof.
  run_cycle.
  all: intros Hin; which_call; done.
Qed.

(** X1. A suspended record: the cycle fetches it, issues one status update
    under the background context, carrying Ready, False, Suspended stamped
    with the first reading of the clock, and nothing else, whatever the
    image is; it returns no error and asks for no requeue, unless the API
    server refuses the update, whose error it then returns with a requeue. *)
Theorem Reconcile_suspended
    (req : types.NamespacedName) (w : World) (imageRepo : ImageRepository) :
  GetRefused req = None ->
  objects w !! req = Some imageRepo ->
  Suspend (Spec imageRepo) = true ->
  exists answer,
    issued req w
    = [GetRecord req (inr imageRepo);
       StatusUpdate context.Background
         (SetImageRepositoryReadiness (Clock (ticks w)) imageRepo
            corev1.ConditionFalse SuspendedReason
            "ImageRepository is suspended, skipping reconciliation")
         answer]
    /\ database (Reconcile req w).2 = database w
    /\ (Reconcile req w).1
       = match answer with
         | None => (ctrl.zero, None)
         | Some err => (ctrl.requeue, Some err)
         end.
Proof.
  intros Hget Hobj Hsus.
  unfold_cycle. rewrite Hget, Hobj. reduce_cycle. rewrite Hsus. reduce_cycle.
  repeat (next_answer; reduce_cycle). all: read_log.
  all: eexists; split_all; reflexivity.
Qed.

(** X2. A record whose image does not parse: the cycle fetches it, issues one
    status update under the background context, carrying Ready, False, the
    invalid-image reason and the text of the parse error, and nothing else;
    it returns an error with a requeue: the parse error, or the error of the
    API server when it refuses the update. *)
Theorem Reconcile_invalid_reference
    (req : types.NamespacedName) (w : World) (imageRepo : ImageRepository)
    (err : error) :
  GetRefused req = None ->
  objects w !! req = Some imageRepo ->
  Suspend (Spec imageRepo) = false ->
  ParseReference (Image (Spec imageRepo)) = inl err ->
  exists answer,
    issued req w
    = [GetRecord req (inr imageRepo);
       StatusUpdate context.Background
         (SetImageRepositoryReadiness (Clock (ticks w)) imageRepo
            corev1.ConditionFalse ImageURLInvalidReason (Error err))
         answer]
    /\ database (Reconcile req w).2 = database w
    /\ (Reconcile req w).1 = (ctrl.requeue, Some (default err answer)).
Proof.
  intros Hget Hobj Hsus Hparse.
  unfold_cycle. rewrite Hget, Hobj. reduce_cycle. rewrite Hsus, Hparse.
  reduce_cycle.
  repeat (next_answer; reduce_cycle). all: read_log.
  all: eexists; split_all; reflexivity.
Qed.

End Branches.

(** ** What a cycle leaves alone, and what its calls carry *)

Section Frame.

Context `{Collaborators}.

Import imagev1alpha1.

(** The records after a cycle: as before, or with the status of an accepted
    status update put on the record it was issued for. *)
Lemma Reconcile_objects req w :
  objects (Reconcile req w).2 = objects w
  \/ exists ctx obj stored,
       StatusUpdate ctx obj None ∈ issued req w
       /\ objects w !! key_of (ObjectMeta obj) = Some stored
       /\ objects (Reconcile req w).2
          = <[key_of (ObjectMeta obj) := with_Status stored (Status obj)]> (objects w).
Proof.
  run_cycle.
  all: first [ by left | right; eexists _, _, _; split_all; [by find_call|done|done] ].
Qed.

(** X3. A cycle creates and deletes no record, and changes neither the
    metadata nor the spec of one: under every key they are what they were,
    and no record stays no record. *)
Theorem Reconcile_keeps_specs
    (req : types.NamespacedName) (w : World) (key : types.NamespacedName) :
  (fun obj => (ObjectMeta obj, Spec obj)) <$> objects (Reconcile req w).2 !! key
  = (fun obj => (ObjectMeta obj, Spec obj)) <$> objects w !! key.
Proof.
  destruct (Reconcile_objects req w) as [->|(ctx & obj & stored & _ & Hstored & ->)];
    [done|].
  rewrite lookup_insert. case_decide; [subst|done].
  by rewrite Hstored.
Qed.

(** X4. A cycle that changes the record stored under some key puts on it the
    status carried by a status update that the API server accepted, issued
    for that key. *)
Theorem Reconcile_changes_status_by_update
    (req : types.NamespacedName) (w : World) (key : types.NamespacedName) :
  objects (Reconcile req w).2 !! key <> objects w !! key ->
  exists ctx obj stored,
    StatusUpdate ctx obj None ∈ issued req w
    /\ key = key_of (ObjectMeta obj)
    /\ objects w !! key = Some stored
    /\ objects (Reconcile req w).2 !! key = Some (with_Status stored (Status obj)).
Proof.
  destruct (Reconcile_objects req w) as [->|(ctx & obj & stored & Hin & Hstored & ->)];
    [done|].
  rewrite lookup_insert. case_decide; [subst|done].
  intros _. by exists ctx, obj, stored.
Qed.

(** X5. A cycle changes the tags of no repository but the one its record's
    image names. *)
Theorem Reconcile_keeps_other_tags
    (req : types.NamespacedName) (w : World) (imageRepo : ImageRepository)
    (ref : name.Reference) (repo : string) :
  objects w !! req = Some imageRepo ->
  ParseReference (Image (Spec imageRepo)) = inr ref ->
  repo <> name.String (name.Context ref) ->
  database (Reconcile req w).2 !! repo = database w !! repo.
Proof.
  intros Hobj Hparse Hother. revert Hparse.
  unfold_cycle. reduce_cycle. rewrite Hobj.
  repeat (next_answer; reduce_cycle).
  all: intros Hparse; try reflexivity; try done.
  all: injection Hparse as <-; by rewrite lookup_insert_ne.
Qed.

End Frame.

(** ** What the calls of a cycle carry *)

Section Calls.

Context `{Collaborators}.

Import imagev1alpha1.

(** X6. A registry listing is issued for a fetched record that is not suspended
    and whose image parses, against the repository of that image, under the
    scan's timeout context, and it is the only listing of the cycle.  With
    no secret named by the record it carries no option; otherwise it
    carries exactly the authenticator resolved, for the registry host of
    the image, from the secret of that name in the record's namespace. *)
Theorem listing_credentials
    (req : types.NamespacedName) (w : World) (ctx : context.Context)
    (repo : name.Repository) (options : list remote.Option)
    (answer : error + list string) :
  ListTags ctx repo options answer ∈ issued req w ->
  exists imageRepo ref,
    objects w !! req = Some imageRepo
    /\ Suspend (Spec imageRepo) = false
    /\ ParseReference (Image (Spec imageRepo)) = inr ref
    /\ repo = name.Context ref
    /\ ctx = context.WithTimeout context.Background scanTimeout
    /\ listings (issued req w) = [(ctx, repo, options, answer)]
    /\ match SecretRef (Spec imageRepo) with
       | None => options = []
       | Some secretRef =>
           exists secret auth,
             secrets w !! types.mk (GetNamespace imageRepo) (corev1.Name secretRef)
             = Some secret
             /\ authFromSecret secret (name.RegistryStr repo) = inr auth
             /\ options = [remote.WithAuth auth]
       end.
Proof.
  run_cycle.
  all: intros Hin; which_call.
  all: eexists _, _; split_all; try reflexivity; try done.
  all: match goal with Hs : SecretRef _ = _ |- _ => cbn in Hs; rewrite Hs end.
  all: try reflexivity.
  all: by eexists _, _.
Qed.

(** X7. A secret is read only in a cycle that is due, under the scan's timeout
    context, and it is the secret the record names, looked up in the
    record's own namespace; a cycle reads no other secret. *)
Theorem secret_read
    (req : types.NamespacedName) (w : World) (ctx : context.Context)
    (key : types.NamespacedName) (answer : error + corev1.Secret) :
  GetSecret ctx key answer ∈ issued req w ->
  exists imageRepo secretRef when,
    objects w !! req = Some imageRepo
    /\ SecretRef (Spec imageRepo) = Some secretRef
    /\ key = types.mk (GetNamespace imageRepo) (corev1.Name secretRef)
    /\ ctx = context.WithTimeout context.Background scanTimeout
    /\ branch req w = Due when.
Proof.
  run_cycle.
  all: intros Hin; which_call.
  all: eexists _, _, _; split_all; try reflexivity; try done.
Qed.

(** X8. What a cycle returns.  With an error: a plain requeue request, except
    for a failed fetch, whose error, unless it is a not-found error, comes
    back with no request.  Without an error: no request at all, or a
    requeue after the delay the scheduler gave. *)
Theorem Reconcile_result
    (req : types.NamespacedName) (w : World) (result : ctrl.Result)
    (failure : option error) :
  (Reconcile req w).1 = (result, failure) ->
  match failure with
  | Some err =>
      result = ctrl.requeue
      \/ (result = ctrl.zero /\ branch req w = NotFetched err /\ IsNotFound err = false)
  | None =>
      result = ctrl.zero
      \/ exists when,
          result = ctrl.after when
          /\ (branch req w = NotDue when \/ branch req w = Due when)
  end.
Proof.
  unfold_cycle. unfold client.IgnoreNotFound. reduce_cycle.
  repeat (next_answer; reduce_cycle).
  all: intros Hreturn; try discriminate Hreturn.
  all: injection Hreturn as <-; subst; eauto 6.
Qed.

(** X9. Every status update carries the metadata and the spec of the fetched
    record.  In a due cycle it is issued under the scan's timeout context
    and carries the canonical name of the parsed image; in the other
    cycles it is issued under the background context and carries the
    canonical name and the last scan result the record had. *)
Theorem status_update_carries
    (req : types.NamespacedName) (w : World) (ctx : context.Context)
    (obj : ImageRepository) (answer : option error) :
  StatusUpdate ctx obj answer ∈ issued req w ->
  exists imageRepo,
    objects w !! req = Some imageRepo
    /\ ObjectMeta obj = ObjectMeta imageRepo
    /\ Spec obj = Spec imageRepo
    /\ match branch req w with
       | Due _ =>
           ctx = context.WithTimeout context.Background scanTimeout
           /\ exists ref,
               ParseReference (Image (Spec imageRepo)) = inr ref
               /\ CanonicalImageName (Status obj) = name.String (name.Context ref)
       | _ =>
           ctx = context.Background
           /\ CanonicalImageName (Status obj) = CanonicalImageName (Status imageRepo)
           /\ LastScanResult (Status obj) = LastScanResult (Status imageRepo)
       end.
Proof.
  run_cycle.
  all: intros Hin; which_call.
  all: eexists; split_all; try reflexivity; try done.
  all: by eexists.
Qed.

(** X10. A status update of a cycle in which no listing succeeded carries the
    last scan result the record had: a failed scan keeps the tag count of
    the last successful one. *)
Theorem failed_scan_keeps_count
    (req : types.NamespacedName) (w : World) (ctx : context.Context)
    (obj : ImageRepository) (answer : option error) :
  (forall ctx repo options tags,
     ListTags ctx repo options (inr tags) ∉ issued req w) ->
  StatusUpdate ctx obj answer ∈ issued req w ->
  exists imageRepo,
    objects w !! req = Some imageRepo
    /\ LastScanResult (Status obj) = LastScanResult (Status imageRepo).
Proof.
  run_cycle.
  all: intros Hno Hin; which_call.
  all: try (by eexists).
  all: exfalso; eapply Hno; find_call.
Qed.

End Calls.

(** ** More on readiness, the scheduler and credentials *)

Section Leaves.

Import imagev1alpha1.

(** X11. [GetLastTransitionTime] answers the timestamp of the first condition of
    type Ready: conditions of other types before it are skipped, and what
    follows it, Ready or not, is not looked at. *)
Theorem GetLastTransitionTime_first_ready
    (ir : ImageRepository) (before after : list Condition.t) (c : Condition.t) :
  Conditions (Status ir) = before ++ c :: after ->
  Forall (fun c' => Condition.Type_ c' <> ReadyCondition) before ->
  Condition.Type_ c = ReadyCondition ->
  GetLastTransitionTime ir = Some (Condition.LastTransitionTime c).
Proof.
  unfold GetLastTransitionTime. intros -> Hbefore Hready.
  induction Hbefore as [|c' before Hc' _ IH]; simpl.
  - by rewrite Hready.
  - by destruct (String.eqb_spec (Condition.Type_ c') ReadyCondition).
Qed.

(** X12. Readiness round trip: after [SetImageRepositoryReadiness] the last
    transition time read back is the stamp of that call, whatever conditions
    the record had; setting readiness twice is setting the second alone;
    and metadata, spec, canonical name and last scan result are untouched. *)
Theorem readiness_round_trip
    (t1 t2 : time.Time) (ir : ImageRepository)
    (s1 s2 : corev1.ConditionStatus) (r1 m1 r2 m2 : string) :
  GetLastTransitionTime (SetImageRepositoryReadiness t1 ir s1 r1 m1) = Some t1
  /\ SetImageRepositoryReadiness t2 (SetImageRepositoryReadiness t1 ir s1 r1 m1) s2 r2 m2
     = SetImageRepositoryReadiness t2 ir s2 r2 m2
  /\ ObjectMeta (SetImageRepositoryReadiness t1 ir s1 r1 m1) = ObjectMeta ir
  /\ Spec (SetImageRepositoryReadiness t1 ir s1 r1 m1) = Spec ir
  /\ CanonicalImageName (Status (SetImageRepositoryReadiness t1 ir s1 r1 m1))
     = CanonicalImageName (Status ir)
  /\ LastScanResult (Status (SetImageRepositoryReadiness t1 ir s1 r1 m1))
     = LastScanResult (Status ir).
Proof. split_all; reflexivity. Qed.

(** X13. What [shouldScan] answers: when it says to scan, the delay is the scan
    interval; when it says not to, the record has a Ready condition, tags
    are stored for its canonical name, and the delay is the interval less
    the elapsed time, as Go durations, and is at least one second. *)
Theorem shouldScan_delay
    (db : gmap string (list string)) (repo : ImageRepository) (now : time.Time)
    (ok : bool) (when : time.Duration) :
  shouldScan db repo now = (ok, when) ->
  if ok then when = scanIntervalOf repo
  else time.Second <= when <= time.maxDuration
       /\ Tags db (CanonicalImageName (Status repo)) <> []
       /\ exists last,
           GetLastTransitionTime repo = Some last
           /\ when = time.sub (scanIntervalOf repo) (time.Sub now last).
Proof.
  unfold shouldScan.
  destruct (GetLastTransitionTime repo) as [last|]; [|by intros [= <- <-]].
  destruct (Tags db _) as [|tag tags] eqn:Htags; [by intros [= <- <-]|].
  cbn [length Nat.eqb].
  destruct (Z.ltb_spec (time.sub (scanIntervalOf repo) (time.Sub now last)) time.Second)
    as [Hlt|Hge]; intros [= <- <-]; [done|].
  split_all; [done| |done|by exists last].
  apply wrap_bounds.
Qed.

(** X14. An interval under one second makes every cycle a scan, as long as the
    last transition is not after the present instant. *)
Theorem shouldScan_short_interval
    (db : gmap string (list string)) (repo : ImageRepository) (now last : time.Time) :
  0 <= scanIntervalOf repo < time.Second ->
  GetLastTransitionTime repo = Some last ->
  last <= now ->
  shouldScan db repo now = (true, scanIntervalOf repo).
Proof.
  intros Hshort Hlast Hpast. unfold shouldScan. rewrite Hlast.
  destruct (Nat.eqb _ 0); [done|].
  assert (Hrem : time.sub (scanIntervalOf repo) (time.Sub now last) < time.Second).
  { pose proof (Sub_bounds now last) as Hbounds.
    assert (0 <= time.Sub now last) as Hpos.
    { unfold time.Sub.
      destruct (Z.ltb_spec (now - last) time.minDuration) as [Hmin|_].
      - unfold time.minDuration in Hmin. lia.
      - destruct (_ <? _); [unfold time.maxDuration|]; lia. }
    unfold time.sub. rewrite wrap_in_range; [lia|].
    unfold time.in_range, time.minDuration, time.maxDuration, time.Second,
      time.Millisecond, time.Microsecond, time.Nanosecond in *. lia. }
  apply Z.ltb_lt in Hrem. by rewrite Hrem.
Qed.

End Leaves.

Section Resolution.

Context `{Collaborators}.

(** X15. Resolution succeeds exactly for a secret of type
    kubernetes.io/dockerconfigjson whose payload under the key
    .dockerconfigjson (no payload when the key is missing) decodes to a
    mapping with an entry under exactly the registry host; the
    authenticator then carries that entry and no other. *)
Theorem authFromSecret_succeeds_iff
    (secret : corev1.Secret) (registry : string) (auth : authn.Authenticator) :
  authFromSecret secret registry = inr auth <->
  corev1.Type_ secret = "kubernetes.io/dockerconfigjson"
  /\ exists cfg,
      Decode (default EmptyString (corev1.Data secret !! ".dockerconfigjson")) = inr cfg
      /\ Auths cfg !! registry = Some (authn.Authorization auth).
Proof.
  unfold authFromSecret.
  destruct (String.eqb_spec (corev1.Type_ secret) "kubernetes.io/dockerconfigjson")
    as [Hty|Hty].
  - destruct (Decode _) as [err|cfg].
    + split; [done|]. by intros (_ & cfg & Hdec & _).
    + destruct (Auths cfg !! registry) as [entry|] eqn:Hentry.
      * split.
        -- intros [= <-]. split; [done|]. by exists cfg.
        -- intros (_ & cfg' & [= <-] & Hsame). rewrite Hentry in Hsame.
           injection Hsame as ->. by destruct auth.
      * split; [done|]. intros (_ & cfg' & [= <-] & Hsome). congruence.
  - split; [done|]. by intros [? _].
Qed.

(** X16. Resolution fails in three ways only: with the error "unknown secret
    type" for a secret of another type; with the error of the decoder for a
    payload that does not decode (no payload when the key
    .dockerconfigjson is missing), before the registry host is looked at;
    and with the error "auth for (host) not found" when the decoded mapping
    has no entry under the host. *)
Theorem authFromSecret_fails_by
    (secret : corev1.Secret) (registry : string) (err : error) :
  authFromSecret secret registry = inl err ->
  let payload := default EmptyString (corev1.Data secret !! ".dockerconfigjson") in
  (corev1.Type_ secret <> "kubernetes.io/dockerconfigjson"
   /\ err = fmt.Errorf ("unknown secret type " +:+ Quote (corev1.Type_ secret)))
  \/ (corev1.Type_ secret = "kubernetes.io/dockerconfigjson"
      /\ Decode payload = inl err)
  \/ (corev1.Type_ secret = "kubernetes.io/dockerconfigjson"
      /\ exists cfg,
          Decode payload = inr cfg
          /\ Auths cfg !! registry = None
          /\ err = fmt.Errorf
                     ("auth for " +:+ Quote registry +:+ " not found in secret "
                      +:+ corev1.GetNamespace secret +:+ "/" +:+ corev1.GetName secret)).
Proof.
  unfold authFromSecret. cbv zeta.
  destruct (String.eqb_spec (corev1.Type_ secret) "kubernetes.io/dockerconfigjson")
    as [Hty|Hty].
  - destruct (Decode _) as [err'|cfg] eqn:Hdec.
    + intros [= <-]. by right; left.
    + destruct (Auths cfg !! registry) as [entry|] eqn:Hentry; [done|].
      intros [= <-]. right; right. split; [done|]. by exists cfg.
  - intros [= <-]. by left.
Qed.

End Resolution.

(** ** From one cycle to the next *)

Section Successive.

Context `{Collaborators}.

Import imagev1alpha1.

(** What a logged listing says about the cycle. *)
Lemma listing_issued req w ctx repo options answer :
  ListTags ctx repo options answer ∈ issued req w ->
  exists imageRepo ref,
    objects w !! req = Some imageRepo
    /\ GetRefused req = None
    /\ Suspend (Spec imageRepo) = false
    /\ ParseReference (Image (Spec imageRepo)) = inr ref
    /\ repo = name.Context ref.
Proof.
  run_cycle.
  all: intros Hin; which_call.
  all: by eexists _, _.
Qed.

(** A listing that succeeded leaves its tags in the database. *)
Lemma listing_stores_tags req w ctx repo options tags :
  ListTags ctx repo options (inr tags) ∈ issued req w ->
  database (Reconcile req w).2 = <[name.String repo := tags]> (database w).
Proof.
  run_cycle.
  all: intros Hin; which_call.
  all: reflexivity.
Qed.

(** The record under the requested key keeps its spec over a cycle. *)
Lemma fetched_again req w imageRepo :
  objects w !! req = Some imageRepo ->
  exists again,
    objects (Reconcile req w).2 !! req = Some again /\ Spec again = Spec imageRepo.
Proof.
  intros Hobj.
  destruct (Reconcile_objects req w) as [->|(ctx & obj & stored & _ & Hstored & ->)].
  - by exists imageRepo.
  - rewrite lookup_insert. case_decide; [subst|by exists imageRepo].
    rewrite Hobj in Hstored. injection Hstored as <-. by eexists.
Qed.

(** The branch taken by a cycle that fetches a record which is not
    suspended and whose image parses. *)
Lemma branch_scheduled req w imageRepo ref :
  GetRefused req = None ->
  objects w !! req = Some imageRepo ->
  Suspend (Spec imageRepo) = false ->
  ParseReference (Image (Spec imageRepo)) = inr ref ->
  branch req w
  = let '(ok, when) :=
      shouldScan (database w)
        (set_CanonicalImageName (name.String (name.Context ref)) imageRepo)
        (Clock (ticks w)) in
    if ok : bool then Due when else NotDue when.
Proof.
  intros Hget Hobj Hsus Hparse.
  unfold branch, Get, bind, ret, log. rewrite Hget, Hobj. cbn [fst].
  by rewrite Hsus, Hparse.
Qed.

(** X17. The quirk of the empty repository: after a cycle whose listing answered
    no tag at all, the next cycle for the same record is due again,
    whatever time has passed and whether or not the status was written. *)
Theorem empty_listing_rescans
    (req : types.NamespacedName) (w : World) (ctx : context.Context)
    (repo : name.Repository) (options : list remote.Option) :
  ListTags ctx repo options (inr []) ∈ issued req w ->
  exists imageRepo,
    objects w !! req = Some imageRepo
    /\ branch req (Reconcile req w).2 = Due (scanIntervalOf imageRepo).
Proof.
  intros Hlist.
  destruct (listing_issued _ _ _ _ _ _ Hlist)
    as (imageRepo & ref & Hobj & Hget & Hsus & Hparse & ->).
  exists imageRepo. split; [done|].
  destruct (fetched_again _ _ _ Hobj) as (again & Hagain & Hspec).
  pose proof (listing_stores_tags req w ctx (name.Context ref) options [] Hlist)
    as Hdb.
  remember (Reconcile req w).2 as w' eqn:Hw'. clear Hw'.
  rewrite (branch_scheduled req w' again ref); rewrite ?Hspec; try done.
  rewrite Hdb. unfold shouldScan, Tags, scanIntervalOf. cbn.
  rewrite lookup_insert_eq, Hspec. by destruct (firstReady _).
Qed.



End Successive.

(** ** The further statements on the sample cluster *)

Section FurtherRuns.

Import imagev1alpha1.

Lemma Reconcile_suspended_paused :
  exists answer,
    issued (H := Sample.healthy) Sample.key Sample.paused
    = [GetRecord Sample.key (inr Sample.suspendedRecord);
       StatusUpdate context.Background
         (SetImageRepositoryReadiness (Sample.clock 0) Sample.suspendedRecord
            corev1.ConditionFalse SuspendedReason
            "ImageRepository is suspended, skipping reconciliation")
         answer]
    /\ database (Reconcile (H := Sample.healthy) Sample.key Sample.paused).2 = ∅
    /\ (Reconcile (H := Sample.healthy) Sample.key Sample.paused).1
       = match answer with
         | None => (ctrl.zero, None)
         | Some err => (ctrl.requeue, Some err)
         end.
Proof.
  apply (Reconcile_suspended (H := Sample.healthy) Sample.key Sample.paused
           Sample.suspendedRecord).
  all: vm_compute; reflexivity.
Defined.

Lemma Reconcile_invalid_reference_blank :
  exists answer,
    issued (H := Sample.healthy) Sample.key Cases.blank
    = [GetRecord Sample.key (inr Cases.blankRecord);
       StatusUpdate context.Background
         (SetImageRepositoryReadiness (Sample.clock 0) Cases.blankRecord
            corev1.ConditionFalse ImageURLInvalidReason
            "could not parse reference: ")
         answer]
    /\ database (Reconcile (H := Sample.healthy) Sample.key Cases.blank).2 = ∅
    /\ (Reconcile (H := Sample.healthy) Sample.key Cases.blank).1
       = (ctrl.requeue, Some (default Cases.parseFailure answer)).
Proof.
  apply (Reconcile_invalid_reference (H := Sample.healthy) Sample.key Cases.blank
           Cases.blankRecord Cases.parseFailure).
  all: vm_compute; reflexivity.
Defined.

Lemma Reconcile_changes_status_fresh :
  exists ctx obj stored,
    StatusUpdate ctx obj None ∈ issued (H := Sample.healthy) Sample.key Sample.fresh
    /\ Sample.key = key_of (ObjectMeta obj)
    /\ objects Sample.fresh !! Sample.key = Some stored
    /\ objects (Reconcile (H := Sample.healthy) Sample.key Sample.fresh).2 !! Sample.key
       = Some (with_Status stored (Status obj)).
Proof.
  apply (Reconcile_changes_status_by_update (H := Sample.healthy) Sample.key
           Sample.fresh Sample.key).
  vm_compute. discriminate.
Defined.

Lemma Reconcile_keeps_other_tags_lapsed :
  database (Reconcile (H := Sample.healthy) Sample.key Sample.lapsed).2 !! Sample.busybox
  = Sample.stored !! Sample.busybox.
Proof.
  apply (Reconcile_keeps_other_tags (H := Sample.healthy) Sample.key Sample.lapsed
           Sample.newRecord (name.mkReference Sample.alpineRepo) Sample.busybox).
  - vm_compute; reflexivity.
  - vm_compute; reflexivity.
  - vm_compute. discriminate.
Defined.

Lemma listing_credentials_logged_in :
  exists auth,
    authFromSecret (H := Cases.serving Sample.threeTags) Cases.bareSecret "index.docker.io"
    = inr auth
    /\ authn.credentials auth = ("fooser", "foopass")
    /\ listings (issued (H := Cases.serving Sample.threeTags) Sample.key Cases.loggedIn)
       = [(Sample.scanCtx, Sample.alpineRepo, [remote.WithAuth auth],
           inr Sample.threeTags)].
Proof.
  destruct (listing_credentials (H := Cases.serving Sample.threeTags) Sample.key
              Cases.loggedIn Sample.scanCtx Sample.alpineRepo
              [remote.WithAuth (authn.FromConfig Sample.fooser)] (inr Sample.threeTags))
    as (imageRepo & ref & _ & _ & _ & _ & _ & Hlistings & _).
  - vm_compute. find_call.
  - exists (authn.FromConfig Sample.fooser). split_all; [| |exact Hlistings].
    all: vm_compute; reflexivity.
Defined.

Lemma secret_read_private :
  exists imageRepo secretRef when,
    objects Sample.private !! Sample.key = Some imageRepo
    /\ SecretRef (Spec imageRepo) = Some secretRef
    /\ types.mk "default" "regcred"
       = types.mk (GetNamespace imageRepo) (corev1.Name secretRef)
    /\ Sample.scanCtx = context.WithTimeout context.Background scanTimeout
    /\ branch (H := Sample.healthy) Sample.key Sample.private = Due when.
Proof.
  apply (secret_read (H := Sample.healthy) Sample.key Sample.private Sample.scanCtx
           (types.mk "default" "regcred") (inr Sample.loginSecret)).
  vm_compute. find_call.
Defined.

Lemma Reconcile_result_fresh :
  ctrl.after (10 * time.Minute) = ctrl.zero
  \/ exists when,
      ctrl.after (10 * time.Minute) = ctrl.after when
      /\ (branch (H := Sample.healthy) Sample.key Sample.fresh = NotDue when
          \/ branch (H := Sample.healthy) Sample.key Sample.fresh = Due when).
Proof.
  apply (Reconcile_result (H := Sample.healthy) Sample.key Sample.fresh
           (ctrl.after (10 * time.Minute)) None).
  vm_compute; reflexivity.
Defined.

Lemma status_update_carries_paused :
  exists imageRepo,
    objects Sample.paused !! Sample.key = Some imageRepo
    /\ ObjectMeta imageRepo = Sample.meta
    /\ CanonicalImageName (Status imageRepo) = EmptyString.
Proof.
  destruct (status_update_carries (H := Sample.healthy) Sample.key Sample.paused
              context.Background
              (SetImageRepositoryReadiness (Sample.clock 0) Sample.suspendedRecord
                 corev1.ConditionFalse SuspendedReason suspendedMsg)
              None)
    as (imageRepo & Hobj & Hmeta & _ & Hbranch).
  - vm_compute. find_call.
  - exists imageRepo. split; [exact Hobj|]. split; [by rewrite <- Hmeta|].
    assert (branch (H := Sample.healthy) Sample.key Sample.paused = IsSuspended)
      as Hsus by (vm_compute; reflexivity).
    rewrite Hsus in Hbranch. destruct Hbranch as (_ & <- & _). reflexivity.
Defined.

(** After the database was dropped, a scan that fails leaves the count of
    the last successful scan in the status. *)
Lemma failed_scan_keeps_count_dropped :
  exists imageRepo,
    objects Cases.dropped !! Sample.key = Some imageRepo
    /\ 3 = TagCount (LastScanResult (Status imageRepo)).
Proof.
  destruct (failed_scan_keeps_count (H := Sample.unreachable) Sample.key Cases.dropped
              Sample.scanCtx
              (SetImageRepositoryReadiness (Sample.clock 1) Sample.scannedRecord
                 corev1.ConditionFalse ReconciliationFailedReason "connection refused")
              None)
    as (imageRepo & Hobj & Hcount).
  - intros ctx repo options tags Hin.
    set (l := issued Sample.key Cases.dropped) in Hin.
    vm_compute in l. subst l. which_call.
  - vm_compute. find_call.
  - exists imageRepo. split; [exact Hobj|]. by rewrite <- Hcount.
Defined.

Lemma GetLastTransitionTime_busy : GetLastTransitionTime Cases.busyRecord = Some 7.
Proof.
  apply (GetLastTransitionTime_first_ready Cases.busyRecord
           [ {| Condition.Type_ := "Reconciling";
                Condition.Status := corev1.ConditionTrue;
                Condition.LastTransitionTime := 5;
                Condition.Reason := "Progressing";
                Condition.Message := EmptyString |} ]
           [ readyCondition corev1.ConditionTrue 9 ReconciliationSucceededReason
               "successful scan, found 3 tags" ]
           (readyCondition corev1.ConditionFalse 7 ReconciliationFailedReason "EOF")).
  - reflexivity.
  - constructor; [|constructor]. vm_compute. discriminate.
  - reflexivity.
Defined.

Lemma shouldScan_delay_settled :
  time.Second <= 10 * time.Minute - 2 * time.Second <= time.maxDuration
  /\ Tags Sample.stored (CanonicalImageName (Status Sample.scannedRecord)) <> []
  /\ exists last,
      GetLastTransitionTime Sample.scannedRecord = Some last
      /\ 10 * time.Minute - 2 * time.Second
         = time.sub (scanIntervalOf Sample.scannedRecord)
             (time.Sub (Sample.clock 0) last).
Proof.
  apply (shouldScan_delay Sample.stored Sample.scannedRecord (Sample.clock 0) false
           (10 * time.Minute - 2 * time.Second)).
  vm_compute; reflexivity.
Defined.

Lemma shouldScan_hasty :
  shouldScan Sample.stored Cases.hastyRecord (Sample.clock 0)
  = (true, 500 * time.Millisecond).
Proof.
  apply (shouldScan_short_interval Sample.stored Cases.hastyRecord (Sample.clock 0)
           Sample.t0).
  - vm_compute. split; [discriminate|reflexivity].
  - reflexivity.
  - vm_compute. discriminate.
Defined.

Lemma authFromSecret_fails_by_opaque :
  Decode (Collaborators := Sample.healthy) EmptyString = inl (fmt.Errorf "EOF")
  /\ authFromSecret (H := Sample.healthy) Sample.opaqueSecret Sample.hub
     = inl (fmt.Errorf ("unknown secret type " +:+ Sample.quote "Opaque")).
Proof.
  split; [vm_compute; reflexivity|].
  destruct (authFromSecret_fails_by (H := Sample.healthy) Sample.opaqueSecret Sample.hub
              (fmt.Errorf ("unknown secret type " +:+ Sample.quote "Opaque")))
    as [[_ Herr]|[[Hty _]|[Hty _]]].
  - vm_compute; reflexivity.
  - vm_compute; reflexivity.
  - vm_compute in Hty. discriminate Hty.
  - vm_compute in Hty. discriminate Hty.
Defined.

Lemma empty_listing_rescans_fresh :
  exists imageRepo,
    objects Sample.fresh !! Sample.key = Some imageRepo
    /\ branch (H := Cases.serving []) Sample.key
         (Reconcile (H := Cases.serving []) Sample.key Sample.fresh).2
       = Due (scanIntervalOf imageRepo).
Proof.
  apply (empty_listing_rescans (H := Cases.serving []) Sample.key Sample.fresh
           Sample.scanCtx Sample.alpineRepo []).
  vm_compute. find_call.
Defined.


End FurtherRuns.
